From Stdlib Require Import ZArith Ascii String DecimalString.
From stdpp Require Import gmap strings list fin_maps.

Local Open Scope string_scope.
Local Open Scope Z_scope.

(** * scrcpygui: the command builder, the launch action and the settings store

    A shallow embedding of [ScrcpyController] from [scrcpygui.py]:
    [_build_scrcpy_command], [_launch_scrcpy], [save_settings] and
    [load_settings], with the Tk variables they read and write.

    Python [str] values are Rocq strings holding the UTF-8 encoding of the
    text, Python [int] values are [Z]. *)

(** ** Python built-ins used by the controller *)

Module Py.

(** The double-quote character of the f-strings [f'"{path}"']. *)
Definition dquote : string := String (ascii_of_nat 34) EmptyString.

(** [bool(s)] for a string: the empty string is falsy. *)
Definition truthy (s : string) : bool :=
  match s with
  | EmptyString => false
  | String _ _ => true
  end.

(** [str(n)] and [f"{n}"] for an integer: decimal digits, a leading minus
    sign for negative numbers. *)
Definition str_of_int (n : Z) : string := NilZero.string_of_int (Z.to_int n).

(** [s != t] on strings. *)
Definition str_ne (s t : string) : bool := negb (String.eqb s t).

(** [s.startswith(p)]. *)
Fixpoint startswith (s p : string) {struct p} : bool :=
  match p with
  | EmptyString => true
  | String a p' =>
      match s with
      | EmptyString => false
      | String b s' => Ascii.eqb a b && startswith s' p'
      end
  end.

(** [sep.join(l)]. *)
Fixpoint join (sep : string) (l : list string) : string :=
  match l with
  | [] => EmptyString
  | [x] => x
  | x :: rest => x +:+ sep +:+ join sep rest
  end.

(** One-byte whitespace: the characters U+0009..U+000D, U+001C..U+001F
    and U+0020, for which [str.isspace] holds. *)
Definition is_space1 (c : ascii) : bool :=
  let n := nat_of_ascii c in
  ((9 <=? n)%nat && (n <=? 13)%nat) || ((28 <=? n)%nat && (n <=? 32)%nat).

Definition byte_is (c : ascii) (n : nat) : bool := (nat_of_ascii c =? n)%nat.

(** Two-byte whitespace: U+0085 and U+00A0 (C2 85, C2 A0). *)
Definition is_space2 (c1 c2 : ascii) : bool :=
  byte_is c1 194 && (byte_is c2 133 || byte_is c2 160).

(** Three-byte whitespace: U+1680 (E1 9A 80), U+2000..U+200A (E2 80
    80..8A), U+2028, U+2029, U+202F (E2 80 A8, A9, AF), U+205F (E2 81 9F)
    and U+3000 (E3 80 80). *)
Definition is_space3 (c1 c2 c3 : ascii) : bool :=
  (byte_is c1 225 && byte_is c2 154 && byte_is c3 128)
  || (byte_is c1 226 && byte_is c2 128
      && (((128 <=? nat_of_ascii c3)%nat && (nat_of_ascii c3 <=? 138)%nat)
          || byte_is c3 168 || byte_is c3 169 || byte_is c3 175))
  || (byte_is c1 226 && byte_is c2 129 && byte_is c3 159)
  || (byte_is c1 227 && byte_is c2 128 && byte_is c3 128).

(** [s.lstrip()]: drop the leading whitespace characters. *)
Fixpoint lstrip (s : string) : string :=
  match s with
  | EmptyString => EmptyString
  | String c1 s1 =>
      if is_space1 c1 then lstrip s1
      else match s1 with
           | String c2 s2 =>
               if is_space2 c1 c2 then lstrip s2
               else match s2 with
                    | String c3 s3 =>
                        if is_space3 c1 c2 c3 then lstrip s3 else s
                    | EmptyString => s
                    end
           | EmptyString => s
           end
  end.

(** The same scan over the reversed byte sequence, where the bytes of
    a character appear last byte first. *)
Fixpoint lstrip_rev (s : string) : string :=
  match s with
  | EmptyString => EmptyString
  | String c1 s1 =>
      if is_space1 c1 then lstrip_rev s1
      else match s1 with
           | String c2 s2 =>
               if is_space2 c2 c1 then lstrip_rev s2
               else match s2 with
                    | String c3 s3 =>
                        if is_space3 c3 c2 c1 then lstrip_rev s3 else s
                    | EmptyString => s
                    end
           | EmptyString => s
           end
  end.

(** [s.rstrip()]. *)
Definition rstrip (s : string) : string :=
  String.rev (lstrip_rev (String.rev s)).

(** [s.strip()]: leading and trailing whitespace removed. *)
Definition strip (s : string) : string := rstrip (lstrip s).

End Py.

(** ** The option set

    The values [.get()] returns for the Tk variables created by
    [_initialize_variables], each of the type its variable class declares:
    [BooleanVar] gives [bool], [IntVar] gives [Z], [StringVar] gives
    [string]. *)

Record options := Options {
  dark_mode : bool;
  scrcpy_path : string;
  generated_command : string;
  bit_rate : Z;
  max_fps : Z;
  max_size : string;
  fullscreen : bool;
  always_on_top : bool;
  show_touches : bool;
  turn_screen_off : bool;
  stay_awake : bool;
  audio_forward : bool;
  record_screen : bool;
  record_file_path : string;
  mirror_camera : bool;
  camera_facing : string;
  camera_size : string;
  camera_orientation : string;
  video_codec : string;
  audio_codec : string;
  video_buffer : Z;
  v4l2_sink_path : string;
  audio_bit_rate : string
}.

(** The entries of [CONSTANTS] that the logic reads. *)
Module CONSTANTS.
Definition default_bit_rate : Z := 8.
Definition default_max_fps : Z := 60.
Definition default_max_size : string := "1080".
Definition default_audio_bit_rate : string := "128".
Definition default_video_buffer_ms : Z := 0.
End CONSTANTS.

(** [_initialize_variables]: a [BooleanVar] or [StringVar] created without
    a value holds [False] or the empty string. *)
Definition _initialize_variables : options :=
  {| dark_mode := true;
     scrcpy_path := EmptyString;
     generated_command := "Please select the scrcpy executable...";
     bit_rate := CONSTANTS.default_bit_rate;
     max_fps := CONSTANTS.default_max_fps;
     max_size := CONSTANTS.default_max_size;
     fullscreen := false;
     always_on_top := false;
     show_touches := false;
     turn_screen_off := false;
     stay_awake := false;
     audio_forward := true;
     record_screen := false;
     record_file_path := EmptyString;
     mirror_camera := false;
     camera_facing := "back";
     camera_size := "Default";
     camera_orientation := "Default";
     video_codec := "Default";
     audio_codec := "Default";
     video_buffer := CONSTANTS.default_video_buffer_ms;
     v4l2_sink_path := EmptyString;
     audio_bit_rate := CONSTANTS.default_audio_bit_rate |}.

(** ** The command builder *)

(** The local list [command] is only ever mutated by [append]; a block of
    the builder is a function from the list before to the list after. *)
Definition block : Type := list string → list string.

Definition append (tok : string) : block := λ command, (command ++ [tok])%list.
Definition skip : block := λ command, command.
Definition when (c : bool) (b : block) : block := if c then b else skip.
Definition seq (b1 b2 : block) : block := λ command, b2 (b1 command).
Infix ">>>" := seq (at level 65, right associativity).

(** The dictionary literal [orientation_map]; the degree sign of its keys
    is the two bytes C2 B0. *)
Definition orientation_map : gmap string string :=
  {[ "0°" := "0"; "90°" := "1"; "180°" := "2"; "270°" := "3" ]}.

(** [if key in orientation_map: command.append(f"...{orientation_map[key]}")]. *)
Definition orientation_block (key : string) : block :=
  match orientation_map !! key with
  | Some n => append ("--capture-orientation=" +:+ n)
  | None => skip
  end.

Definition camera_block (self : options) : block :=
  append "--video-source=camera" >>>
  append ("--camera-facing=" +:+ camera_facing self) >>>
  when (Py.str_ne (camera_size self) "Default")
       (append ("--camera-size=" +:+ Py.strip (camera_size self))) >>>
  orientation_block (camera_orientation self).

Definition screen_block (self : options) : block :=
  append ("--video-bit-rate=" +:+ Py.str_of_int (bit_rate self) +:+ "M") >>>
  append ("--max-fps=" +:+ Py.str_of_int (max_fps self)) >>>
  when (Py.str_ne (max_size self) "Device Native")
       (append ("--max-size=" +:+ max_size self)).

Definition source_block (self : options) : block :=
  if mirror_camera self then camera_block self else screen_block self.

Definition window_block (self : options) : block :=
  when (fullscreen self) (append "--fullscreen") >>>
  when (always_on_top self) (append "--always-on-top") >>>
  when (show_touches self) (append "--show-touches") >>>
  when (turn_screen_off self) (append "--turn-screen-off") >>>
  when (stay_awake self) (append "--stay-awake").

Definition audio_block (self : options) : block :=
  if negb (audio_forward self) then append "--no-audio"
  else if Py.str_ne (audio_bit_rate self) CONSTANTS.default_audio_bit_rate
       then append ("--audio-bit-rate=" +:+ audio_bit_rate self +:+ "k")
       else skip.

Definition record_block (self : options) : block :=
  when (record_screen self && Py.truthy (Py.strip (record_file_path self)))
       (append ("--record=" +:+ Py.dquote +:+ Py.strip (record_file_path self)
                +:+ Py.dquote)).

Definition advanced_block (self : options) : block :=
  when (Py.str_ne (video_codec self) "Default")
       (append ("--video-codec=" +:+ video_codec self)) >>>
  when (Py.str_ne (audio_codec self) "Default")
       (append ("--audio-codec=" +:+ audio_codec self)) >>>
  when (0 <? video_buffer self)
       (append ("--video-buffer=" +:+ Py.str_of_int (video_buffer self))) >>>
  when (Py.truthy (Py.strip (v4l2_sink_path self)))
       (append ("--v4l2-sink=" +:+ Py.strip (v4l2_sink_path self))).

(** The statements of [_build_scrcpy_command] after the initial list. *)
Definition body (self : options) : block :=
  source_block self >>> window_block self >>> audio_block self >>>
  record_block self >>> advanced_block self.

(** [_build_scrcpy_command]: [None] for Python's [None]. *)
Definition _build_scrcpy_command (self : options) : option (list string) :=
  let path := scrcpy_path self in
  if negb (Py.truthy path) then None
  else
    let command := [Py.dquote +:+ path +:+ Py.dquote] in
    Some (body self command).

(** *** What the proofs say about blocks and tokens *)

(** A block leaves the tokens it was given in place and adds its own at
    the end. *)
Definition appends (b : block) : Prop :=
  ∀ command, b command = (command ++ b [])%list.

(** The first token: the executable path between double quotes. *)
Definition quoted_path (self : options) : string :=
  Py.dquote +:+ scrcpy_path self +:+ Py.dquote.

(** The tokens after the first, block by block. *)
Definition arguments (self : options) : list string :=
  (source_block self [] ++ window_block self [] ++ audio_block self []
   ++ record_block self [] ++ advanced_block self [])%list.

(** Token classes the properties speak about. *)
Definition is_bit_rate_token (t : string) : bool :=
  Py.startswith t "--video-bit-rate=".
Definition is_camera_source_token (t : string) : bool :=
  String.eqb t "--video-source=camera".
Definition is_no_audio_token (t : string) : bool :=
  String.eqb t "--no-audio".
Definition is_audio_bit_rate_token (t : string) : bool :=
  Py.startswith t "--audio-bit-rate".
Definition is_audio_token (t : string) : bool :=
  is_no_audio_token t || is_audio_bit_rate_token t.
Definition is_orientation_token (t : string) : bool :=
  Py.startswith t "--capture-orientation=".
Definition is_camera_size_token (t : string) : bool :=
  Py.startswith t "--camera-size=".

(** *** Scenarios *)

(** Screen mirroring with every option at its default. *)
Definition screen_scenario : options :=
  {| dark_mode := true;
     scrcpy_path := "/usr/bin/scrcpy";
     generated_command := "Please select the scrcpy executable...";
     bit_rate := 8;
     max_fps := 60;
     max_size := "1080";
     fullscreen := false;
     always_on_top := false;
     show_touches := false;
     turn_screen_off := false;
     stay_awake := false;
     audio_forward := true;
     record_screen := false;
     record_file_path := EmptyString;
     mirror_camera := false;
     camera_facing := "back";
     camera_size := "Default";
     camera_orientation := "Default";
     video_codec := "Default";
     audio_codec := "Default";
     video_buffer := 0;
     v4l2_sink_path := EmptyString;
     audio_bit_rate := "128" |}.

(** Camera mirroring of the front camera, turned by 90 degrees. *)
Definition camera_scenario : options :=
  {| dark_mode := true;
     scrcpy_path := "/usr/bin/scrcpy";
     generated_command := "Please select the scrcpy executable...";
     bit_rate := 8;
     max_fps := 60;
     max_size := "1080";
     fullscreen := false;
     always_on_top := false;
     show_touches := false;
     turn_screen_off := false;
     stay_awake := false;
     audio_forward := true;
     record_screen := false;
     record_file_path := EmptyString;
     mirror_camera := true;
     camera_facing := "front";
     camera_size := "Default";
     camera_orientation := "90°";
     video_codec := "Default";
     audio_codec := "Default";
     video_buffer := 0;
     v4l2_sink_path := EmptyString;
     audio_bit_rate := "128" |}.

(** The same, with a camera size that reads [Default] between two spaces. *)
Definition padded_size_scenario : options :=
  {| dark_mode := true;
     scrcpy_path := "/usr/bin/scrcpy";
     generated_command := "Please select the scrcpy executable...";
     bit_rate := 8;
     max_fps := 60;
     max_size := "1080";
     fullscreen := false;
     always_on_top := false;
     show_touches := false;
     turn_screen_off := false;
     stay_awake := false;
     audio_forward := true;
     record_screen := false;
     record_file_path := EmptyString;
     mirror_camera := true;
     camera_facing := "front";
     camera_size := " Default ";
     camera_orientation := "90°";
     video_codec := "Default";
     audio_codec := "Default";
     video_buffer := 0;
     v4l2_sink_path := EmptyString;
     audio_bit_rate := "128" |}.

(** ** The launch action *)

(** [posixpath.dirname]: everything up to the last slash, without trailing
    slashes unless the directory is the root. *)
Module posixpath.

Definition is_sep (c : ascii) : bool := Ascii.eqb c "/".

Fixpoint has_sep (p : string) : bool :=
  match p with
  | EmptyString => false
  | String c p' => is_sep c || has_sep p'
  end.

(** [p[:p.rfind('/') + 1]]. *)
Fixpoint head (p : string) : string :=
  match p with
  | EmptyString => EmptyString
  | String c p' => if has_sep p then String c (head p') else EmptyString
  end.

Fixpoint all_sep (p : string) : bool :=
  match p with
  | EmptyString => true
  | String c p' => is_sep c && all_sep p'
  end.

(** [head.rstrip('/')]. *)
Fixpoint rstrip_sep (p : string) : string :=
  match p with
  | EmptyString => EmptyString
  | String c p' =>
      match rstrip_sep p' with
      | EmptyString => if is_sep c then EmptyString else String c EmptyString
      | r => String c r
      end
  end.

Definition dirname (p : string) : string :=
  let head := head p in
  if Py.truthy head && negb (all_sep head) then rstrip_sep head else head.

End posixpath.

(** What the controller asks of the toolkit and the operating system. *)
Inductive event :=
| ShowError (title message : string)
| ConfigButton (state text : string)
| UpdateIdletasks
| Print (line : string)
| Popen (args : string) (shell : bool) (cwd : string)
| ProcessWait
| After (ms : Z) (callback : string).

Section Launch.

(** [os.path.dirname] of the platform the controller runs on. *)
Variable os_path_dirname : string → string.

(** What [subprocess.Popen] does with a command line and a working
    directory: [None] when the child was started, the text of the exception
    otherwise. *)
Variable spawn : string → string → option string.

(** [_launch_scrcpy]: the requests it makes, in order. [Popen] starts the
    child and returns; [ProcessWait] stands for a call that blocks until
    the child has finished. *)
Definition _launch_scrcpy (self : options) : list event :=
  match _build_scrcpy_command self with
  | None | Some [] => [ShowError "Error" "Scrcpy executable path is not set."]
  | Some command_to_run =>
      let final_command_str := Py.join " " command_to_run in
      let scrcpy_dir := os_path_dirname (scrcpy_path self) in
      ([ConfigButton "disabled" "Connecting...";
        UpdateIdletasks;
        Print ("Executing: " +:+ final_command_str);
        Popen final_command_str true scrcpy_dir]
       ++ match spawn final_command_str scrcpy_dir with
          | None => []
          | Some e =>
              [ShowError "Execution Error"
                 ("Failed to launch scrcpy:" +:+ String (ascii_of_nat 10) e)]
          end
       ++ [After 3000 "_reset_connect_button"])%list
  end.

End Launch.

Definition is_process_start (e : event) : bool :=
  match e with Popen _ _ _ => true | _ => false end.


(** The path ends with a slash. *)
Fixpoint ends_with_sep (p : string) : bool :=
  match p with
  | EmptyString => false
  | String c EmptyString => posixpath.is_sep c
  | String _ p' => ends_with_sep p'
  end.


(** ** The settings store *)

(** The Python values [json.load] returns and [json.dump] accepts: [None],
    booleans, integers, strings, lists and dictionaries (the items of a
    dictionary in insertion order; [json.load] gives every key once, at
    the place of its first occurrence and with the value of its last).
    Floating-point numbers are left out. *)
#[warnings="-register-all"]
Inductive pyval :=
| PNone
| PBool (b : bool)
| PInt (n : Z)
| PStr (s : string)
| PList (l : list pyval)
| PDict (items : list (string * pyval)).

(** The exceptions that the settings code can meet. [OSError] stands for
    the errors of [open] other than [FileNotFoundError] (a directory, a
    file without the permission to read it); [ValueError] for the plain
    [ValueError] of [int] on a literal with more digits than it converts,
    which is not a [JSONDecodeError]. *)
Inductive exn :=
| FileNotFoundError
| OSError
| UnicodeDecodeError
| JSONDecodeError
| ValueError
| RecursionError
| TypeError
| AttributeError
| TclError.

(** The settings file as [open] and [json.load] see it:
    - [Missing]: there is no file;
    - [Unopenable]: the path cannot be opened for reading;
    - [Undecodable]: the bytes of the file are not text in the encoding
      of the platform;
    - [Empty]: the file holds nothing;
    - [Malformed]: the text is not a JSON document;
    - [Oversized]: the text is a JSON document with an integer of more
      digits than [int] converts;
    - [TooDeep]: the text is a JSON document nested beyond the recursion
      limit;
    - [Json]: the text decodes to a value.
    [json.dump] followed by [json.load] gives back the value written; the
    model of the file starts from there. *)
Inductive settings_file :=
| Missing
| Unopenable
| Undecodable
| Empty
| Malformed (text : string)
| Oversized (text : string)
| TooDeep (text : string)
| Json (doc : pyval).

(** *** Tk variables *)

Module Tk.

Definition to_lower (c : ascii) : ascii :=
  let n := nat_of_ascii c in
  if ((65 <=? n)%nat && (n <=? 90)%nat)%bool then ascii_of_nat (n + 32) else c.

Fixpoint lowercase (s : string) : string :=
  match s with
  | EmptyString => EmptyString
  | String c s' => String (to_lower c) (lowercase s')
  end.

(** [Tcl_GetBoolean]: [0] and [1], or an abbreviation of [yes], [no],
    [true], [false], [on] or [off] in either case ([o] alone is
    ambiguous). *)
Definition Tcl_GetBoolean (s : string) : option bool :=
  let l := lowercase s in
  if Py.truthy s then
    if String.eqb s "0" then Some false
    else if String.eqb s "1" then Some true
    else if Py.startswith "yes" l then Some true
    else if Py.startswith "no" l then Some false
    else if Py.startswith "true" l then Some true
    else if Py.startswith "false" l then Some false
    else if (2 <=? String.length l)%nat && Py.startswith "on" l then Some true
    else if (2 <=? String.length l)%nat && Py.startswith "off" l then Some false
    else None
  else None.

(** [tkapp.getboolean]: an integer (a boolean is one) is tested against
    zero, a string goes to Tcl, any other value is refused with
    [TypeError]. *)
Definition getboolean (value : pyval) : exn + bool :=
  match value with
  | PBool b => inr b
  | PInt n => inr (negb (n =? 0))
  | PStr s =>
      match Tcl_GetBoolean s with
      | Some b => inr b
      | None => inl TclError
      end
  | PNone | PList _ | PDict _ => inl TypeError
  end.

(** A Tk variable and the value it holds. [BooleanVar.set] converts with
    [getboolean] first, so a [BooleanVar] always holds a boolean;
    [Variable.set], which [IntVar] and [StringVar] inherit, stores the value
    it is given. *)
Inductive variable :=
| BooleanVar (value : bool)
| IntVar (value : pyval)
| StringVar (value : pyval).

Definition set (var : variable) (value : pyval) : exn + variable :=
  match var with
  | BooleanVar _ =>
      match getboolean value with
      | inr b => inr (BooleanVar b)
      | inl e => inl e
      end
  | IntVar _ => inr (IntVar value)
  | StringVar _ => inr (StringVar value)
  end.

End Tk.

(** An attribute of the controller: a Tk variable, or anything else (a
    method, a widget, a plain value). *)
Inductive attribute :=
| TkVariable (var : Tk.variable)
| OtherAttribute.

(** The controller when [load_settings] runs: [settings_file] and
    [CONSTANTS], which are not Tk variables, and the variables of
    [_initialize_variables] holding the values of an option set. *)
Definition controller (self : options) : gmap string attribute :=
  list_to_map
    [("settings_file", OtherAttribute);
     ("CONSTANTS", OtherAttribute);
     ("dark_mode", TkVariable (Tk.BooleanVar (dark_mode self)));
     ("scrcpy_path", TkVariable (Tk.StringVar (PStr (scrcpy_path self))));
     ("generated_command", TkVariable (Tk.StringVar (PStr (generated_command self))));
     ("bit_rate", TkVariable (Tk.IntVar (PInt (bit_rate self))));
     ("max_fps", TkVariable (Tk.IntVar (PInt (max_fps self))));
     ("max_size", TkVariable (Tk.StringVar (PStr (max_size self))));
     ("fullscreen", TkVariable (Tk.BooleanVar (fullscreen self)));
     ("always_on_top", TkVariable (Tk.BooleanVar (always_on_top self)));
     ("show_touches", TkVariable (Tk.BooleanVar (show_touches self)));
     ("turn_screen_off", TkVariable (Tk.BooleanVar (turn_screen_off self)));
     ("stay_awake", TkVariable (Tk.BooleanVar (stay_awake self)));
     ("audio_forward", TkVariable (Tk.BooleanVar (audio_forward self)));
     ("record_screen", TkVariable (Tk.BooleanVar (record_screen self)));
     ("record_file_path", TkVariable (Tk.StringVar (PStr (record_file_path self))));
     ("mirror_camera", TkVariable (Tk.BooleanVar (mirror_camera self)));
     ("camera_facing", TkVariable (Tk.StringVar (PStr (camera_facing self))));
     ("camera_size", TkVariable (Tk.StringVar (PStr (camera_size self))));
     ("camera_orientation", TkVariable (Tk.StringVar (PStr (camera_orientation self))));
     ("video_codec", TkVariable (Tk.StringVar (PStr (video_codec self))));
     ("audio_codec", TkVariable (Tk.StringVar (PStr (audio_codec self))));
     ("video_buffer", TkVariable (Tk.IntVar (PInt (video_buffer self))));
     ("v4l2_sink_path", TkVariable (Tk.StringVar (PStr (v4l2_sink_path self))));
     ("audio_bit_rate", TkVariable (Tk.StringVar (PStr (audio_bit_rate self))))].

(** *** save_settings *)

(** The dictionary [settings_to_save]: one item for every attribute that
    is a Tk variable, in the order of [dir(self)], which sorts the names. *)
Definition settings_to_save (self : options) : list (string * pyval) :=
  [("always_on_top", PBool (always_on_top self));
   ("audio_bit_rate", PStr (audio_bit_rate self));
   ("audio_codec", PStr (audio_codec self));
   ("audio_forward", PBool (audio_forward self));
   ("bit_rate", PInt (bit_rate self));
   ("camera_facing", PStr (camera_facing self));
   ("camera_orientation", PStr (camera_orientation self));
   ("camera_size", PStr (camera_size self));
   ("dark_mode", PBool (dark_mode self));
   ("fullscreen", PBool (fullscreen self));
   ("generated_command", PStr (generated_command self));
   ("max_fps", PInt (max_fps self));
   ("max_size", PStr (max_size self));
   ("mirror_camera", PBool (mirror_camera self));
   ("record_file_path", PStr (record_file_path self));
   ("record_screen", PBool (record_screen self));
   ("scrcpy_path", PStr (scrcpy_path self));
   ("show_touches", PBool (show_touches self));
   ("stay_awake", PBool (stay_awake self));
   ("turn_screen_off", PBool (turn_screen_off self));
   ("v4l2_sink_path", PStr (v4l2_sink_path self));
   ("video_buffer", PInt (video_buffer self));
   ("video_codec", PStr (video_codec self))].

(** [save_settings]: the file afterwards and what is printed. [io_error] is
    the text of the [IOError] that [open] raises, if it raises one: the
    file is then left as it was and the error is printed, not raised. *)
Definition save_settings (io_error : option string) (self : options)
    (file : settings_file) : settings_file * list event :=
  match io_error with
  | None => (Json (PDict (settings_to_save self)), [])
  | Some e => (file, [Print ("Error saving settings: " +:+ e)])
  end.

(** *** load_settings *)

(** The loop over [settings.items()]: the controller after it and the
    exception that ended it, if any. *)
Fixpoint assign_items (items : list (string * pyval))
    (self : gmap string attribute) : gmap string attribute * option exn :=
  match items with
  | [] => (self, None)
  | (key, value) :: rest =>
      match self !! key with
      | Some (TkVariable var) =>
          match Tk.set var value with
          | inr var' => assign_items rest (<[key := TkVariable var']> self)
          | inl e => (self, Some e)
          end
      | Some OtherAttribute | None => assign_items rest self
      end
  end.

(** The [try] block: [open] raises [FileNotFoundError] without a file and
    another [OSError] on a path it cannot open; [json.load] raises
    [UnicodeDecodeError] when it reads bytes that are no text,
    [JSONDecodeError] on an empty file and on a text that is no document,
    [ValueError] on an integer too long and [RecursionError] on a nesting
    too deep; a document that is not a dictionary has no [items]. *)
Definition try_load (file : settings_file) (self : gmap string attribute)
    : gmap string attribute * option exn :=
  match file with
  | Missing => (self, Some FileNotFoundError)
  | Unopenable => (self, Some OSError)
  | Undecodable => (self, Some UnicodeDecodeError)
  | Empty | Malformed _ => (self, Some JSONDecodeError)
  | Oversized _ => (self, Some ValueError)
  | TooDeep _ => (self, Some RecursionError)
  | Json (PDict items) => assign_items items self
  | Json _ => (self, Some AttributeError)
  end.

(** [except (FileNotFoundError, json.JSONDecodeError, TypeError): pass].
    None of the others is a subclass of these three. *)
Definition handled (e : exn) : bool :=
  match e with
  | FileNotFoundError | JSONDecodeError | TypeError => true
  | OSError | UnicodeDecodeError | ValueError | RecursionError
  | AttributeError | TclError => false
  end.

(** [load_settings]: the controller afterwards, and the exception that
    reaches the caller, if any. *)
Definition load_settings (file : settings_file) (self : gmap string attribute)
    : gmap string attribute * option exn :=
  let '(self', raised) := try_load file self in
  match raised with
  | Some e => if handled e then (self', None) else (self', Some e)
  | None => (self', None)
  end.

(** *** Reading the controller back *)

(** Names in strictly increasing order, as [dir(self)] lists them. *)
Fixpoint increasing (names : list string) : bool :=
  match names with
  | a :: (b :: _) as rest => String.ltb a b && increasing rest
  | _ => true
  end.

(** The option set a controller holds when every variable holds a value of
    its declared type, which is then what [.get()] returns. *)
Definition get_bool (c : gmap string attribute) (name : string) : option bool :=
  match c !! name with
  | Some (TkVariable (Tk.BooleanVar b)) => Some b
  | _ => None
  end.

Definition get_int (c : gmap string attribute) (name : string) : option Z :=
  match c !! name with
  | Some (TkVariable (Tk.IntVar (PInt n))) => Some n
  | _ => None
  end.

Definition get_str (c : gmap string attribute) (name : string) : option string :=
  match c !! name with
  | Some (TkVariable (Tk.StringVar (PStr s))) => Some s
  | _ => None
  end.

Definition options_of (c : gmap string attribute) : option options :=
  v1 ← get_bool c "dark_mode";
  v2 ← get_str c "scrcpy_path";
  v3 ← get_str c "generated_command";
  v4 ← get_int c "bit_rate";
  v5 ← get_int c "max_fps";
  v6 ← get_str c "max_size";
  v7 ← get_bool c "fullscreen";
  v8 ← get_bool c "always_on_top";
  v9 ← get_bool c "show_touches";
  v10 ← get_bool c "turn_screen_off";
  v11 ← get_bool c "stay_awake";
  v12 ← get_bool c "audio_forward";
  v13 ← get_bool c "record_screen";
  v14 ← get_str c "record_file_path";
  v15 ← get_bool c "mirror_camera";
  v16 ← get_str c "camera_facing";
  v17 ← get_str c "camera_size";
  v18 ← get_str c "camera_orientation";
  v19 ← get_str c "video_codec";
  v20 ← get_str c "audio_codec";
  v21 ← get_int c "video_buffer";
  v22 ← get_str c "v4l2_sink_path";
  v23 ← get_str c "audio_bit_rate";
  Some (Options v1 v2 v3 v4 v5 v6 v7 v8 v9 v10 v11 v12 v13 v14 v15 v16 v17
          v18 v19 v20 v21 v22 v23).

(** ** More of the controller *)

(** *** More token classes *)

Definition is_window_token (t : string) : bool :=
  String.eqb t "--fullscreen" || String.eqb t "--always-on-top"
  || String.eqb t "--show-touches" || String.eqb t "--turn-screen-off"
  || String.eqb t "--stay-awake".
Definition is_record_token (t : string) : bool :=
  Py.startswith t "--record=".
Definition is_video_codec_token (t : string) : bool :=
  Py.startswith t "--video-codec=".
Definition is_audio_codec_token (t : string) : bool :=
  Py.startswith t "--audio-codec=".
Definition is_video_buffer_token (t : string) : bool :=
  Py.startswith t "--video-buffer=".
Definition is_v4l2_sink_token (t : string) : bool :=
  Py.startswith t "--v4l2-sink=".
Definition is_max_fps_token (t : string) : bool :=
  Py.startswith t "--max-fps=".
Definition is_max_size_token (t : string) : bool :=
  Py.startswith t "--max-size=".
Definition is_camera_facing_token (t : string) : bool :=
  Py.startswith t "--camera-facing=".

(** A token that only camera mirroring emits. *)
Definition is_camera_token (t : string) : bool :=
  is_camera_source_token t || is_camera_facing_token t
  || is_camera_size_token t || is_orientation_token t.

(** A token that only screen mirroring emits. *)
Definition is_screen_token (t : string) : bool :=
  is_bit_rate_token t || is_max_fps_token t || is_max_size_token t.

(** *** Writing one variable *)

(** [self.generated_command.set(text)]. *)
Definition set_generated_command (text : string) (self : options) : options :=
  Options (dark_mode self) (scrcpy_path self) text (bit_rate self)
    (max_fps self) (max_size self) (fullscreen self) (always_on_top self)
    (show_touches self) (turn_screen_off self) (stay_awake self)
    (audio_forward self) (record_screen self) (record_file_path self)
    (mirror_camera self) (camera_facing self) (camera_size self)
    (camera_orientation self) (video_codec self) (audio_codec self)
    (video_buffer self) (v4l2_sink_path self) (audio_bit_rate self).

(** [self.scrcpy_path.set(path)]. *)
Definition set_scrcpy_path (path : string) (self : options) : options :=
  Options (dark_mode self) path (generated_command self) (bit_rate self)
    (max_fps self) (max_size self) (fullscreen self) (always_on_top self)
    (show_touches self) (turn_screen_off self) (stay_awake self)
    (audio_forward self) (record_screen self) (record_file_path self)
    (mirror_camera self) (camera_facing self) (camera_size self)
    (camera_orientation self) (video_codec self) (audio_codec self)
    (video_buffer self) (v4l2_sink_path self) (audio_bit_rate self).

(** The three screen controls set to other values. *)
Definition set_screen_controls (rate fps : Z) (size : string) (self : options)
    : options :=
  Options (dark_mode self) (scrcpy_path self) (generated_command self) rate
    fps size (fullscreen self) (always_on_top self)
    (show_touches self) (turn_screen_off self) (stay_awake self)
    (audio_forward self) (record_screen self) (record_file_path self)
    (mirror_camera self) (camera_facing self) (camera_size self)
    (camera_orientation self) (video_codec self) (audio_codec self)
    (video_buffer self) (v4l2_sink_path self) (audio_bit_rate self).

(** The three camera controls set to other values. *)
Definition set_camera_controls (facing size orientation : string)
    (self : options) : options :=
  Options (dark_mode self) (scrcpy_path self) (generated_command self)
    (bit_rate self) (max_fps self) (max_size self) (fullscreen self)
    (always_on_top self) (show_touches self) (turn_screen_off self)
    (stay_awake self) (audio_forward self) (record_screen self)
    (record_file_path self) (mirror_camera self) facing size orientation
    (video_codec self) (audio_codec self)
    (video_buffer self) (v4l2_sink_path self) (audio_bit_rate self).

(** *** A scenario with most options in use *)

(** Screen mirroring in full screen and kept awake, without audio,
    recorded to a path typed with spaces around it, with chosen codecs, a
    buffer and a V4L2 sink. *)
Definition recording_scenario : options :=
  {| dark_mode := false;
     scrcpy_path := "/opt/scrcpy/scrcpy";
     generated_command := "Please select the scrcpy executable...";
     bit_rate := 16;
     max_fps := 30;
     max_size := "Device Native";
     fullscreen := true;
     always_on_top := false;
     show_touches := false;
     turn_screen_off := false;
     stay_awake := true;
     audio_forward := false;
     record_screen := true;
     record_file_path := " /tmp/out.mp4 ";
     mirror_camera := false;
     camera_facing := "back";
     camera_size := "Default";
     camera_orientation := "Default";
     video_codec := "h265";
     audio_codec := "opus";
     video_buffer := 50;
     v4l2_sink_path := "/dev/video2";
     audio_bit_rate := "128" |}.

(** *** The command preview *)

(** The text shown while no executable is selected. *)
Definition placeholder : string := "Please select the scrcpy executable...".

(** [_update_command_preview]: an empty list is as falsy as [None]. *)
Definition _update_command_preview (self : options) : options :=
  match _build_scrcpy_command self with
  | Some ((_ :: _) as command_list) =>
      set_generated_command (Py.join " " command_list) self
  | Some [] | None => set_generated_command placeholder self
  end.

(** [_update_command_preview] once [_bind_variables_to_command_update] has
    put a write trace on every variable: the write to [generated_command]
    fires the trace, which runs the method again; Tcl disables the traces
    of a variable while one of them runs, so the write of the second run
    fires nothing. *)
Definition _update_command_preview_traced (self : options) : options :=
  _update_command_preview (_update_command_preview self).

(** *** More classes of requests *)

Definition is_dialog (e : event) : bool :=
  match e with ShowError _ _ => true | _ => false end.

Definition is_timer (e : event) : bool :=
  match e with After _ _ => true | _ => false end.

(** *** What a load can change *)

(** The three classes of Tk variables the controller has. *)
Inductive var_class := BooleanClass | IntClass | StringClass.

(** The class of an attribute that is a Tk variable. *)
Definition class_of (a : attribute) : option var_class :=
  match a with
  | TkVariable (Tk.BooleanVar _) => Some BooleanClass
  | TkVariable (Tk.IntVar _) => Some IntClass
  | TkVariable (Tk.StringVar _) => Some StringClass
  | OtherAttribute => None
  end.

(** [hasattr(self, key) and isinstance(getattr(self, key), tk.Variable)]. *)
Definition names_variable (self : gmap string attribute) (key : string) : bool :=
  match self !! key with
  | Some (TkVariable _) => true
  | Some OtherAttribute | None => false
  end.

(** The value a dictionary gives for a name: that of the last item with
    this key. *)
Fixpoint last_value (items : list (string * pyval)) (name : string)
    : option pyval :=
  match items with
  | [] => None
  | (key, value) :: rest =>
      match last_value rest name with
      | Some later => Some later
      | None => if String.eqb key name then Some value else None
      end
  end.

(** [key] names a [BooleanVar] of the controller. *)
Definition names_boolean (self : gmap string attribute) (key : string) : bool :=
  match self !! key with
  | Some (TkVariable (Tk.BooleanVar _)) => true
  | _ => false
  end.

(** [getboolean] accepts the value. *)
Definition reads_as_boolean (value : pyval) : bool :=
  match Tk.getboolean value with
  | inr _ => true
  | inl _ => false
  end.

(** Every value the dictionary gives to a [BooleanVar] is one that
    [getboolean] accepts. *)
Definition booleans_readable (self : gmap string attribute)
    (items : list (string * pyval)) : bool :=
  forallb (λ item, negb (names_boolean self item.1) || reads_as_boolean item.2)
    items.

(** *** The handlers that refresh the window

    They run once the widgets exist, so with the write traces in place. *)

(** What the handlers ask of the toolkit: [sv_ttk.set_theme(name)] and
    [widget.config(state=...)] on a widget of the controller. *)
Inductive ui_request :=
| SetTheme (name : string)
| WidgetState (widget state : string).

(** [_toggle_theme]. *)
Definition _toggle_theme (self : options) : list ui_request :=
  [SetTheme (if dark_mode self then "dark" else "light")].

(** [_toggle_record_file_entry]: the option set afterwards and the
    requests made. *)
Definition _toggle_record_file_entry (self : options)
    : options * list ui_request :=
  let state := if record_screen self then "normal" else "disabled" in
  (_update_command_preview_traced self,
   [WidgetState "record_file_entry" state;
    WidgetState "record_browse_button" state]).

(** [_toggle_camera_options]. *)
Definition _toggle_camera_options (self : options)
    : options * list ui_request :=
  let is_camera_mode := mirror_camera self in
  let camera_state := if is_camera_mode then "normal" else "disabled" in
  let screen_state := if is_camera_mode then "disabled" else "normal" in
  (_update_command_preview_traced self,
   [WidgetState "bit_rate_scale" screen_state;
    WidgetState "max_fps_scale" screen_state;
    WidgetState "max_size_combo" screen_state;
    WidgetState "camera_facing_combo" camera_state;
    WidgetState "camera_facing_label" camera_state;
    WidgetState "camera_size_combo" camera_state;
    WidgetState "camera_size_label" camera_state;
    WidgetState "camera_orientation_combo" camera_state;
    WidgetState "camera_orientation_label" camera_state]).

(** [_update_ui_from_loaded_settings]. *)
Definition _update_ui_from_loaded_settings (self : options)
    : options * list ui_request :=
  let theme := _toggle_theme self in
  let '(self, camera) := _toggle_camera_options self in
  let '(self, recording) := _toggle_record_file_entry self in
  let self := _update_command_preview_traced self in
  (self,
   (theme ++ camera ++ recording
    ++ (if Py.truthy (scrcpy_path self)
        then [WidgetState "connect_button" "normal"]
        else []))%list).

(** The widgets that a list of requests puts in [state], in the order of
    the requests. *)
Definition widgets_set_to (state : string) (requests : list ui_request)
    : list string :=
  flat_map (λ r, match r with
                 | WidgetState widget s =>
                     if String.eqb s state then [widget] else []
                 | SetTheme _ => []
                 end) requests.

(** The themes that a list of requests sets. *)
Definition themes_set (requests : list ui_request) : list string :=
  flat_map (λ r, match r with
                 | SetTheme name => [name]
                 | WidgetState _ _ => []
                 end) requests.

(** The state of a request on a widget is ["normal"] or ["disabled"]. *)
Definition is_widget_state (r : ui_request) : bool :=
  match r with
  | WidgetState _ s => String.eqb s "normal" || String.eqb s "disabled"
  | SetTheme _ => true
  end.

(** The widgets of the screen options, of the camera options and of the
    recording path, as [_toggle_camera_options] and
    [_toggle_record_file_entry] go through them. *)
Definition screen_widgets : list string :=
  ["bit_rate_scale"; "max_fps_scale"; "max_size_combo"].

Definition camera_widgets : list string :=
  ["camera_facing_combo"; "camera_facing_label";
   "camera_size_combo"; "camera_size_label";
   "camera_orientation_combo"; "camera_orientation_label"].

Definition record_widgets : list string :=
  ["record_file_entry"; "record_browse_button"].

(** [_browse_for_scrcpy], for the path the file dialog returned (empty
    when the dialog was cancelled). The write to [scrcpy_path] fires its
    write trace, which updates the preview; the handler then updates it
    itself. *)
Definition _browse_for_scrcpy (path : string) (self : options)
    : options * list ui_request :=
  if Py.truthy path then
    let self := _update_command_preview_traced (set_scrcpy_path path self) in
    (_update_command_preview_traced self,
     [WidgetState "connect_button" "normal"])
  else (self, []).

(** *** The order of the tokens *)

(** The place of a token in the source of [_build_scrcpy_command]: 0 for
    the quoted path, then the statements that append, from top to bottom
    (the two branches of the mode share the places 1 to 4, the two
    branches of the audio the place 10); 16 for any other text. *)
Definition token_rank (t : string) : nat :=
  if Py.startswith t Py.dquote then 0
  else if Py.startswith t "--video-source=" then 1
  else if Py.startswith t "--camera-facing=" then 2
  else if Py.startswith t "--camera-size=" then 3
  else if Py.startswith t "--capture-orientation=" then 4
  else if Py.startswith t "--video-bit-rate=" then 1
  else if Py.startswith t "--max-fps=" then 2
  else if Py.startswith t "--max-size=" then 3
  else if String.eqb t "--fullscreen" then 5
  else if String.eqb t "--always-on-top" then 6
  else if String.eqb t "--show-touches" then 7
  else if String.eqb t "--turn-screen-off" then 8
  else if String.eqb t "--stay-awake" then 9
  else if String.eqb t "--no-audio" then 10
  else if Py.startswith t "--audio-bit-rate=" then 10
  else if Py.startswith t "--record=" then 11
  else if Py.startswith t "--video-codec=" then 12
  else if Py.startswith t "--audio-codec=" then 13
  else if Py.startswith t "--video-buffer=" then 14
  else if Py.startswith t "--v4l2-sink=" then 15
  else 16.

(** The numbers are strictly increasing and none is below [lo]. *)
Fixpoint ascending (lo : nat) (l : list nat) : bool :=
  match l with
  | [] => true
  | x :: rest => (lo <=? x)%nat && ascending (S x) rest
  end.

(** Every number is below [hi]. *)
Definition below (hi : nat) (l : list nat) : bool :=
  forallb (λ x, (x <? hi)%nat) l.

(** * Proofs *)

(** ** The built-ins on examples *)

Example strip_ex1 : Py.strip " Default " = "Default".
Proof. reflexivity. Qed.

Example str_of_int_ex : Py.str_of_int 0 = "0" ∧ Py.str_of_int (-12) = "-12".
Proof. split; reflexivity. Qed.

Example orientation_ex : orientation_map !! "90°" = Some "1".
Proof. reflexivity. Qed.

(** ** Blocks only append *)

Lemma appends_append tok : appends (append tok).
Proof. intros command. reflexivity. Qed.

Lemma appends_skip : appends skip.
Proof. intros command. unfold skip. by rewrite app_nil_r. Qed.

Lemma appends_when c b : appends b → appends (when c b).
Proof. destruct c; [done | intros _; apply appends_skip]. Qed.

Lemma appends_seq b1 b2 : appends b1 → appends b2 → appends (b1 >>> b2).
Proof.
  intros H1 H2 command. unfold seq.
  rewrite (H2 (b1 command)), (H2 (b1 [])), (H1 command).
  by rewrite app_assoc.
Qed.

Lemma seq_nil b1 b2 : appends b2 → (b1 >>> b2) [] = (b1 [] ++ b2 [])%list.
Proof. intros H2. unfold seq. apply H2. Qed.

Create HintDb blocks discriminated.
#[local] Hint Resolve appends_append appends_skip appends_when appends_seq
  : blocks.

Lemma appends_orientation key : appends (orientation_block key).
Proof. unfold orientation_block. destruct (orientation_map !! key); auto with blocks. Qed.
#[local] Hint Resolve appends_orientation : blocks.

Lemma appends_source self : appends (source_block self).
Proof.
  unfold source_block, camera_block, screen_block.
  destruct (mirror_camera self); auto 10 with blocks.
Qed.

Lemma appends_window self : appends (window_block self).
Proof. unfold window_block. auto 10 with blocks. Qed.

Lemma appends_audio self : appends (audio_block self).
Proof. unfold audio_block. repeat case_match; auto with blocks. Qed.

Lemma appends_record self : appends (record_block self).
Proof. unfold record_block. auto with blocks. Qed.

Lemma appends_advanced self : appends (advanced_block self).
Proof. unfold advanced_block. auto 10 with blocks. Qed.

#[local] Hint Resolve appends_source appends_window appends_audio
  appends_record appends_advanced : blocks.

Lemma body_arguments self command :
  body self command = (command ++ arguments self)%list.
Proof.
  assert (Hb : appends (body self)) by (unfold body; auto 10 with blocks).
  rewrite (Hb command). f_equal. unfold body, arguments.
  repeat (rewrite seq_nil; [f_equal | auto 10 with blocks]).
Qed.

Lemma build_unfold self :
  _build_scrcpy_command self =
    if decide (scrcpy_path self = EmptyString) then None
    else Some (quoted_path self :: arguments self).
Proof.
  unfold _build_scrcpy_command. rewrite body_arguments.
  case_decide as Hp.
  - by rewrite Hp.
  - unfold quoted_path. by destruct (scrcpy_path self).
Qed.

Lemma build_Some_inv self command :
  _build_scrcpy_command self = Some command →
  scrcpy_path self ≠ EmptyString ∧
  command = quoted_path self :: arguments self.
Proof.
  rewrite build_unfold. case_decide; [done |]. intros [= <-]. done.
Qed.

(** ** Which tokens a block can emit *)

(** Every token a block emits starts with a fixed text, so a class is
    decided on the block's tokens by evaluation, whatever the option
    values are. *)
Ltac unfold_blocks :=
  unfold source_block, camera_block, screen_block, window_block, audio_block,
    record_block, advanced_block, orientation_block, when, seq, append, skip.

Ltac by_cases_on_options :=
  unfold_blocks; repeat case_match; reflexivity.

(** [quiet b]: the class in the goal has no token in block [b]. *)
Ltac quiet b :=
  match goal with
  | |- context [List.filter ?p (b ?self [])] =>
      replace (List.filter p (b self [])) with (@nil string)
        by (symmetry; by_cases_on_options)
  end.

Lemma filter_arguments (p : string → bool) self :
  List.filter p (arguments self) =
    (List.filter p (source_block self []) ++
     List.filter p (window_block self []) ++
     List.filter p (audio_block self []) ++
     List.filter p (record_block self []) ++
     List.filter p (advanced_block self []))%list.
Proof. unfold arguments. by rewrite !List.filter_app. Qed.

Lemma source_camera self :
  mirror_camera self = true → source_block self = camera_block self.
Proof. unfold source_block. by intros ->. Qed.

Lemma source_screen self :
  mirror_camera self = false → source_block self = screen_block self.
Proof. unfold source_block. by intros ->. Qed.

(** In camera mode no token of the command sets a video bit rate. *)
Lemma camera_no_bit_rate self :
  mirror_camera self = true →
  List.filter is_bit_rate_token (quoted_path self :: arguments self) = [].
Proof.
  intros Hcam. cbn [List.filter].
  replace (is_bit_rate_token (quoted_path self)) with false by reflexivity.
  rewrite filter_arguments, (source_camera _ Hcam).
  quiet camera_block. quiet window_block. quiet audio_block.
  quiet record_block. quiet advanced_block. reflexivity.
Qed.

(** In screen mode no token of the command selects the camera. *)
Lemma screen_no_camera_source self :
  mirror_camera self = false →
  List.filter is_camera_source_token (quoted_path self :: arguments self) = [].
Proof.
  intros Hscr. cbn [List.filter].
  replace (is_camera_source_token (quoted_path self)) with false by reflexivity.
  rewrite filter_arguments, (source_screen _ Hscr).
  quiet screen_block. quiet window_block. quiet audio_block.
  quiet record_block. quiet advanced_block. reflexivity.
Qed.

Lemma filter_nil_not_In (p : string → bool) (l : list string) t :
  List.filter p l = [] → In t l → p t = false.
Proof.
  intros Hnil Hin. destruct (p t) eqn:Hp; [| done].
  assert (Ht : In t (List.filter p l)) by (apply List.filter_In; done).
  rewrite Hnil in Ht. destruct Ht.
Qed.

(** The audio tokens of a command are those of the audio block. *)
Lemma audio_class self :
  List.filter is_audio_token (quoted_path self :: arguments self) =
    List.filter is_audio_token (audio_block self []).
Proof.
  cbn [List.filter].
  replace (is_audio_token (quoted_path self)) with false by reflexivity.
  rewrite filter_arguments.
  quiet source_block. quiet window_block. quiet record_block.
  quiet advanced_block. by rewrite app_nil_r.
Qed.

(** In camera mode the tokens of a class that only the camera block can
    emit are those of the camera block. *)
Lemma camera_class (p : string → bool) self :
  mirror_camera self = true →
  p (quoted_path self) = false →
  List.filter p (window_block self []) = [] →
  List.filter p (audio_block self []) = [] →
  List.filter p (record_block self []) = [] →
  List.filter p (advanced_block self []) = [] →
  List.filter p (quoted_path self :: arguments self) =
    List.filter p (camera_block self []).
Proof.
  intros Hcam Hq Hw Ha Hr Hv. cbn [List.filter].
  rewrite Hq, filter_arguments, (source_camera _ Hcam), Hw, Ha, Hr, Hv.
  by rewrite app_nil_r.
Qed.

Lemma orientation_class self :
  mirror_camera self = true →
  List.filter is_orientation_token (quoted_path self :: arguments self) =
    match orientation_map !! camera_orientation self with
    | Some n => ["--capture-orientation=" +:+ n]
    | None => []
    end.
Proof.
  intros Hcam. rewrite camera_class; [| done | reflexivity | by_cases_on_options ..].
  by_cases_on_options.
Qed.

Lemma camera_size_class self :
  mirror_camera self = true →
  List.filter is_camera_size_token (quoted_path self :: arguments self) =
    if Py.str_ne (camera_size self) "Default"
    then ["--camera-size=" +:+ Py.strip (camera_size self)]
    else [].
Proof.
  intros Hcam. rewrite camera_class; [| done | reflexivity | by_cases_on_options ..].
  by_cases_on_options.
Qed.

(** The four keys of [orientation_map]. *)
Lemma orientation_map_None (label : string) :
  label ≠ "0°" → label ≠ "90°" → label ≠ "180°" → label ≠ "270°" →
  orientation_map !! label = None.
Proof.
  intros H0 H90 H180 H270. unfold orientation_map.
  rewrite !lookup_insert_ne by done. by apply lookup_singleton_ne.
Qed.

Lemma str_ne_true (s t : string) : s ≠ t → Py.str_ne s t = true.
Proof. intros H. unfold Py.str_ne. by apply negb_true_iff, String.eqb_neq. Qed.

Lemma str_ne_false (s t : string) : s = t → Py.str_ne s t = false.
Proof. intros ->. unfold Py.str_ne. by rewrite String.eqb_refl. Qed.

Example build_camera_scenario :
  _build_scrcpy_command camera_scenario =
    Some [Py.dquote +:+ "/usr/bin/scrcpy" +:+ Py.dquote;
          "--video-source=camera"; "--camera-facing=front";
          "--capture-orientation=1"].
Proof. reflexivity. Qed.

Example build_padded_size_scenario :
  _build_scrcpy_command padded_size_scenario =
    Some [Py.dquote +:+ "/usr/bin/scrcpy" +:+ Py.dquote;
          "--video-source=camera"; "--camera-facing=front";
          "--camera-size=Default"; "--capture-orientation=1"].
Proof. reflexivity. Qed.

(** ** Properties of the command builder *)

(** C1: the builder returns [None] exactly when the executable path is the
    empty string; with a non-empty path it returns a non-empty list whose
    first token is the path between double quotes. *)
Theorem build_none_iff_path_empty (self : options) :
  (_build_scrcpy_command self = None ↔ scrcpy_path self = EmptyString) ∧
  (scrcpy_path self ≠ EmptyString →
   ∃ rest, _build_scrcpy_command self =
             Some ((Py.dquote +:+ scrcpy_path self +:+ Py.dquote) :: rest)).
Proof.
  rewrite build_unfold. case_decide as Hp; split.
  - done.
  - done.
  - split; [done | intros; contradiction].
  - intros _. by exists (arguments self).
Qed.

Lemma build_none_iff_path_empty_witness :
  ∃ rest, _build_scrcpy_command screen_scenario =
            Some ((Py.dquote +:+ "/usr/bin/scrcpy" +:+ Py.dquote) :: rest).
Proof.
  apply (proj2 (build_none_iff_path_empty screen_scenario)). discriminate.
Defined.

(** C2: the command never holds both the token [--video-source=camera] and
    a token that begins with [--video-bit-rate=]. *)
Theorem camera_and_bit_rate_exclusive (self : options) (command : list string) :
  _build_scrcpy_command self = Some command →
  ¬ (In "--video-source=camera" command ∧
     ∃ t, In t command ∧ Py.startswith t "--video-bit-rate=" = true).
Proof.
  intros Hb [Hcam (t & Ht & Hp)].
  apply build_Some_inv in Hb as [_ ->].
  destruct (mirror_camera self) eqn:Hm.
  - pose proof (filter_nil_not_In _ _ _ (camera_no_bit_rate _ Hm) Ht) as Hf.
    unfold is_bit_rate_token in Hf. congruence.
  - pose proof (filter_nil_not_In _ _ _ (screen_no_camera_source _ Hm) Hcam) as Hf.
    discriminate Hf.
Qed.

Lemma camera_and_bit_rate_exclusive_witness :
  ¬ (In "--video-source=camera"
        [Py.dquote +:+ "/usr/bin/scrcpy" +:+ Py.dquote;
         "--video-bit-rate=8M"; "--max-fps=60"; "--max-size=1080"] ∧
     ∃ t, In t [Py.dquote +:+ "/usr/bin/scrcpy" +:+ Py.dquote;
                "--video-bit-rate=8M"; "--max-fps=60"; "--max-size=1080"] ∧
          Py.startswith t "--video-bit-rate=" = true).
Proof.
  apply (camera_and_bit_rate_exclusive screen_scenario). reflexivity.
Defined.

(** C4: with audio forwarding off the only audio token is [--no-audio];
    with audio forwarding on and the default bit rate there is no audio
    token; with audio forwarding on and another bit rate [v] the only audio
    token is [--audio-bit-rate=<v>k]. *)
Theorem audio_tokens (self : options) (command : list string) :
  _build_scrcpy_command self = Some command →
  (audio_forward self = false →
   List.filter is_audio_token command = ["--no-audio"]) ∧
  (audio_forward self = true → audio_bit_rate self = "128" →
   List.filter is_audio_token command = []) ∧
  (audio_forward self = true → audio_bit_rate self ≠ "128" →
   List.filter is_audio_token command =
     ["--audio-bit-rate=" +:+ audio_bit_rate self +:+ "k"]).
Proof.
  intros Hb. apply build_Some_inv in Hb as [_ ->].
  rewrite audio_class.
  unfold audio_block, CONSTANTS.default_audio_bit_rate. repeat split.
  - by intros ->.
  - intros -> Hv. by rewrite (str_ne_false _ _ Hv).
  - intros -> Hv. by rewrite (str_ne_true _ _ Hv).
Qed.

Lemma audio_tokens_witness :
  List.filter is_audio_token
    [Py.dquote +:+ "/usr/bin/scrcpy" +:+ Py.dquote;
     "--video-bit-rate=8M"; "--max-fps=60"; "--max-size=1080"] = [].
Proof.
  apply (audio_tokens screen_scenario); reflexivity.
Defined.

(** C5: in camera mode the orientation labels 0°, 90°, 180° and 270° give
    the token [--capture-orientation=N] with N = 0, 1, 2, 3; any other
    label gives no orientation token, and the builder still returns a
    command. *)
Theorem orientation_tokens (self : options) :
  scrcpy_path self ≠ EmptyString →
  mirror_camera self = true →
  ∃ command,
    _build_scrcpy_command self = Some command ∧
    (camera_orientation self = "0°" →
     List.filter is_orientation_token command = ["--capture-orientation=0"]) ∧
    (camera_orientation self = "90°" →
     List.filter is_orientation_token command = ["--capture-orientation=1"]) ∧
    (camera_orientation self = "180°" →
     List.filter is_orientation_token command = ["--capture-orientation=2"]) ∧
    (camera_orientation self = "270°" →
     List.filter is_orientation_token command = ["--capture-orientation=3"]) ∧
    (camera_orientation self ≠ "0°" → camera_orientation self ≠ "90°" →
     camera_orientation self ≠ "180°" → camera_orientation self ≠ "270°" →
     List.filter is_orientation_token command = []).
Proof.
  intros Hp Hcam. exists (quoted_path self :: arguments self).
  rewrite build_unfold, decide_False by done.
  rewrite (orientation_class _ Hcam).
  split; [done |]. repeat split.
  - by intros ->.
  - by intros ->.
  - by intros ->.
  - by intros ->.
  - intros. by rewrite orientation_map_None.
Qed.

Lemma orientation_tokens_witness :
  ∃ command,
    _build_scrcpy_command camera_scenario = Some command ∧
    List.filter is_orientation_token command = ["--capture-orientation=1"].
Proof.
  destruct (orientation_tokens camera_scenario) as (command & Hb & _ & H90 & _).
  - discriminate.
  - reflexivity.
  - exists command. split; [exact Hb | apply H90; reflexivity].
Defined.

(** C7: the screen-mirroring scenario (path [/usr/bin/scrcpy], bit rate 8,
    60 frames per second, resolution 1080, the five switches off, audio
    forwarded at the default 128, no recording, default codecs, no buffer,
    no V4L2 sink) gives exactly four tokens, in this order, whatever the
    remaining variables hold. *)
Theorem build_screen_scenario
    (dark : bool) (preview record_path facing size orientation : string) :
  _build_scrcpy_command
    {| dark_mode := dark;
       scrcpy_path := "/usr/bin/scrcpy";
       generated_command := preview;
       bit_rate := 8;
       max_fps := 60;
       max_size := "1080";
       fullscreen := false;
       always_on_top := false;
       show_touches := false;
       turn_screen_off := false;
       stay_awake := false;
       audio_forward := true;
       record_screen := false;
       record_file_path := record_path;
       mirror_camera := false;
       camera_facing := facing;
       camera_size := size;
       camera_orientation := orientation;
       video_codec := "Default";
       audio_codec := "Default";
       video_buffer := 0;
       v4l2_sink_path := EmptyString;
       audio_bit_rate := "128" |} =
    Some [Py.dquote +:+ "/usr/bin/scrcpy" +:+ Py.dquote;
          "--video-bit-rate=8M"; "--max-fps=60"; "--max-size=1080"].
Proof. reflexivity. Qed.

(** C9: in camera mode the size is compared with [Default] before it is
    trimmed: a size that is not literally [Default] but trims to it gives
    the token [--camera-size=Default], and the size [Default] itself gives
    no camera-size token. *)
Theorem camera_size_compared_untrimmed (self : options) (command : list string) :
  _build_scrcpy_command self = Some command →
  mirror_camera self = true →
  (camera_size self ≠ "Default" → Py.strip (camera_size self) = "Default" →
   List.filter is_camera_size_token command = ["--camera-size=Default"]) ∧
  (camera_size self = "Default" →
   List.filter is_camera_size_token command = []).
Proof.
  intros Hb Hcam. apply build_Some_inv in Hb as [_ ->].
  rewrite (camera_size_class _ Hcam). split.
  - intros Hne Hs. by rewrite (str_ne_true _ _ Hne), Hs.
  - intros Heq. by rewrite (str_ne_false _ _ Heq).
Qed.

Lemma camera_size_compared_untrimmed_witness :
  List.filter is_camera_size_token
    [Py.dquote +:+ "/usr/bin/scrcpy" +:+ Py.dquote;
     "--video-source=camera"; "--camera-facing=front";
     "--camera-size=Default"; "--capture-orientation=1"]
  = ["--camera-size=Default"].
Proof.
  apply (camera_size_compared_untrimmed padded_size_scenario).
  - reflexivity.
  - reflexivity.
  - discriminate.
  - reflexivity.
Defined.

(** ** Properties of the launch action *)

Example dirname_ex :
  posixpath.dirname "/usr/bin/scrcpy" = "/usr/bin" ∧
  posixpath.dirname "/scrcpy" = "/" ∧
  posixpath.dirname "scrcpy" = EmptyString ∧
  posixpath.dirname "//opt//tools//scrcpy" = "//opt//tools".
Proof. repeat split. Qed.

Example join_ex : Py.join " " ["a"; "b"; "c"] = "a b c".
Proof. reflexivity. Qed.



Lemma head_no_sep name :
  posixpath.has_sep name = false → posixpath.head name = EmptyString.
Proof. destruct name as [| c name]; [done |]. cbn [posixpath.head]. by intros ->. Qed.

Lemma has_sep_app dir name :
  posixpath.has_sep (dir +:+ "/" +:+ name) = true.
Proof.
  induction dir as [| c dir IH]; [reflexivity |].
  change (String c dir +:+ "/" +:+ name) with (String c (dir +:+ "/" +:+ name)).
  cbn [posixpath.has_sep]. rewrite IH. apply orb_true_r.
Qed.

Lemma head_dir dir name :
  posixpath.has_sep name = false →
  posixpath.head (dir +:+ "/" +:+ name) = dir +:+ "/".
Proof.
  intros Hname. induction dir as [| c dir IH].
  - change (EmptyString +:+ "/" +:+ name) with (String "/" name).
    cbn [posixpath.head].
    replace (posixpath.has_sep (String "/" name)) with true by reflexivity.
    by rewrite (head_no_sep _ Hname).
  - change (String c dir +:+ "/" +:+ name)
      with (String c (dir +:+ "/" +:+ name)).
    cbn [posixpath.head].
    change (posixpath.has_sep (String c (dir +:+ "/" +:+ name)))
      with (posixpath.is_sep c || posixpath.has_sep (dir +:+ "/" +:+ name)).
    rewrite has_sep_app, orb_true_r, IH. reflexivity.
Qed.

Lemma all_sep_app dir :
  posixpath.all_sep (dir +:+ "/") = posixpath.all_sep dir.
Proof.
  induction dir as [| c dir IH]; [reflexivity |].
  change (String c dir +:+ "/") with (String c (dir +:+ "/")).
  cbn [posixpath.all_sep]. by rewrite IH.
Qed.

Lemma all_sep_ends dir :
  dir ≠ EmptyString → posixpath.all_sep dir = true → ends_with_sep dir = true.
Proof.
  induction dir as [| c dir IH]; [done |]. intros _.
  cbn [posixpath.all_sep]. intros [Hc Hall]%andb_true_iff.
  destruct dir as [| c' dir]; [exact Hc |].
  change (ends_with_sep (String c (String c' dir)))
    with (ends_with_sep (String c' dir)).
  by apply IH.
Qed.

Lemma rstrip_sep_app dir :
  posixpath.rstrip_sep (dir +:+ "/") = posixpath.rstrip_sep dir.
Proof.
  induction dir as [| c dir IH]; [done |].
  change (String c dir +:+ "/") with (String c (dir +:+ "/")).
  cbn [posixpath.rstrip_sep]. by rewrite IH.
Qed.

Lemma rstrip_sep_id dir :
  ends_with_sep dir = false → posixpath.rstrip_sep dir = dir.
Proof.
  induction dir as [| c dir IH]; [done |].
  destruct dir as [| c' dir].
  - cbn. by intros ->.
  - change (ends_with_sep (String c (String c' dir)))
      with (ends_with_sep (String c' dir)).
    intros Hend. cbn [posixpath.rstrip_sep] in *. by rewrite (IH Hend).
Qed.

(** The directory part of [dir/name] is [dir]. *)
Lemma dirname_file_in_dir dir name :
  posixpath.has_sep name = false → dir ≠ EmptyString →
  ends_with_sep dir = false →
  posixpath.dirname (dir +:+ "/" +:+ name) = dir.
Proof.
  intros Hname Hdir Hend. unfold posixpath.dirname.
  rewrite (head_dir _ _ Hname), all_sep_app.
  destruct (posixpath.all_sep dir) eqn:Hall.
  - pose proof (all_sep_ends _ Hdir Hall). congruence.
  - replace (Py.truthy (dir +:+ "/")) with true by (by destruct dir).
    cbn [andb negb]. by rewrite rstrip_sep_app, rstrip_sep_id.
Qed.

(** A name without a slash has the empty directory part. *)
Lemma dirname_bare_name name :
  posixpath.has_sep name = false → posixpath.dirname name = EmptyString.
Proof. intros Hname. unfold posixpath.dirname. by rewrite (head_no_sep _ Hname). Qed.

(** The directory part of [/name] is the root. *)
Lemma dirname_file_in_root name :
  posixpath.has_sep name = false → posixpath.dirname ("/" +:+ name) = "/".
Proof.
  intros Hname. unfold posixpath.dirname.
  change ("/" +:+ name) with (EmptyString +:+ "/" +:+ name).
  rewrite (head_dir EmptyString _ Hname). reflexivity.
Qed.



(** ** The controller and the saved dictionary *)

Example tcl_boolean_ex :
  Tk.Tcl_GetBoolean "Yes" = Some true ∧ Tk.Tcl_GetBoolean "of" = Some false ∧
  Tk.Tcl_GetBoolean "o" = None ∧ Tk.Tcl_GetBoolean "maybe" = None ∧
  Tk.Tcl_GetBoolean "1" = Some true ∧ Tk.Tcl_GetBoolean "10" = None.
Proof. repeat split. Qed.

Example controller_lookup_ex self :
  controller self !! "bit_rate" = Some (TkVariable (Tk.IntVar (PInt (bit_rate self)))).
Proof. reflexivity. Qed.

(** The saved names are in the order of [dir(self)]. *)
Lemma settings_to_save_sorted self :
  increasing (settings_to_save self).*1 = true.
Proof. reflexivity. Qed.

(** The saved keys are the names of the attributes that are Tk variables. *)
Lemma settings_to_save_keys self (name : string) :
  In name (settings_to_save self).*1 ↔
  ∃ var, controller self !! name = Some (TkVariable var).
Proof.
  split.
  - intros Hin. cbn in Hin.
    repeat (destruct Hin as [<- | Hin]; [eexists; reflexivity |]).
    destruct Hin.
  - intros [var Hvar]. unfold controller in Hvar.
    apply elem_of_list_to_map_2, list_elem_of_In in Hvar. cbn in Hvar.
    repeat (destruct Hvar as [Heq | Hvar]; [simplify_eq; cbn; tauto |]).
    destruct Hvar.
Qed.

(** Saving and then loading sets every variable to the saved value,
    whatever the variables held before. *)
Lemma save_then_load_any (self other : options) (file : settings_file) :
  load_settings (save_settings None self file).1 (controller other) =
    (controller self, None).
Proof. reflexivity. Qed.

Ltac read_variable H name :=
  let Hv := fresh in
  pose proof (f_equal (λ m : gmap string attribute, m !! name) H) as Hv;
  vm_compute in Hv; injection Hv as ?; subst.

(** Two option sets that give the same controller are the same. *)
Lemma controller_inj (a b : options) : controller a = controller b → a = b.
Proof.
  intros H. destruct a, b.
  read_variable H "dark_mode". read_variable H "scrcpy_path".
  read_variable H "generated_command". read_variable H "bit_rate".
  read_variable H "max_fps". read_variable H "max_size".
  read_variable H "fullscreen". read_variable H "always_on_top".
  read_variable H "show_touches". read_variable H "turn_screen_off".
  read_variable H "stay_awake". read_variable H "audio_forward".
  read_variable H "record_screen". read_variable H "record_file_path".
  read_variable H "mirror_camera". read_variable H "camera_facing".
  read_variable H "camera_size". read_variable H "camera_orientation".
  read_variable H "video_codec". read_variable H "audio_codec".
  read_variable H "video_buffer". read_variable H "v4l2_sink_path".
  read_variable H "audio_bit_rate".
  reflexivity.
Qed.

(** Reading back the controller of an option set gives the option set. *)
Lemma options_of_controller (self : options) :
  options_of (controller self) = Some self.
Proof. destruct self. reflexivity. Qed.

(** The loop over a dictionary in two parts: the second part runs only if
    the first ended without an exception. *)
Lemma assign_items_app before after (self : gmap string attribute) :
  assign_items (before ++ after) self =
    match assign_items before self with
    | (self', None) => assign_items after self'
    | stopped => stopped
    end.
Proof.
  revert self. induction before as [| [key value] before IH]; intros self.
  - reflexivity.
  - cbn [assign_items app].
    destruct (self !! key) as [[var |] |]; [| apply IH ..].
    destruct (Tk.set var value); [done | apply IH].
Qed.


(** A document that is not a dictionary has no [items]: the
    [AttributeError] is not among the handled exceptions. *)
Example load_list_document :
  load_settings (Json (PList [])) (controller _initialize_variables) =
    (controller _initialize_variables, Some AttributeError).
Proof. reflexivity. Qed.

(** ** Properties of the settings store *)

(** What the loop does with values of another type: without a file, with
    an empty file or with a text that is no JSON document, the load changes
    nothing and raises nothing. A dictionary is assigned item by item in
    the order of the file and without a check of the type: an integer or
    string variable takes any value, and when a boolean variable refuses a
    value with [TypeError] the load ends there without raising, the
    assignments made so far staying in place. *)
Lemma load_settings_item_by_item (self : gmap string attribute) :
  load_settings Missing self = (self, None) ∧
  load_settings Empty self = (self, None) ∧
  (∀ text, load_settings (Malformed text) self = (self, None)) ∧
  (∀ key value rest old,
     self !! key = Some (TkVariable (Tk.IntVar old)) →
     load_settings (Json (PDict ((key, value) :: rest))) self =
       load_settings (Json (PDict rest))
         (<[key := TkVariable (Tk.IntVar value)]> self)) ∧
  (∀ key value rest old,
     self !! key = Some (TkVariable (Tk.StringVar old)) →
     load_settings (Json (PDict ((key, value) :: rest))) self =
       load_settings (Json (PDict rest))
         (<[key := TkVariable (Tk.StringVar value)]> self)) ∧
  (∀ before key value rest b,
     (assign_items before self).2 = None →
     (assign_items before self).1 !! key = Some (TkVariable (Tk.BooleanVar b)) →
     Tk.getboolean value = inl TypeError →
     load_settings (Json (PDict (before ++ (key, value) :: rest))) self =
       ((assign_items before self).1, None)).
Proof.
  repeat split.
  - intros key value rest old Hkey.
    unfold load_settings, try_load. cbn [assign_items]. by rewrite Hkey.
  - intros key value rest old Hkey.
    unfold load_settings, try_load. cbn [assign_items]. by rewrite Hkey.
  - intros before key value rest b Hnone Hkey Hrefused.
    unfold load_settings, try_load. rewrite assign_items_app.
    destruct (assign_items before self) as [self' raised].
    cbn in Hnone, Hkey. subst raised.
    cbn [assign_items]. rewrite Hkey. cbn [Tk.set]. by rewrite Hrefused.
Qed.

(** C3: the code does not do what the claim says for a value of another
    type. On the file [{"bit_rate": "fast", "fullscreen": "maybe"}], read
    into the default controller, the load is no no-op and it raises: the
    string is stored in the integer variable [bit_rate], then
    [BooleanVar.set] raises [TclError], which the [except] clause does not
    list, so it reaches the caller with [bit_rate] changed. *)
Theorem load_settings_type_mismatch :
  load_settings
    (Json (PDict [("bit_rate", PStr "fast"); ("fullscreen", PStr "maybe")]))
    (controller _initialize_variables) =
    (<["bit_rate" := TkVariable (Tk.IntVar (PStr "fast"))]>
       (controller _initialize_variables),
     Some TclError) ∧
  (<["bit_rate" := TkVariable (Tk.IntVar (PStr "fast"))]>
     (controller _initialize_variables) : gmap string attribute)
  ≠ controller _initialize_variables.
Proof.
  split; [reflexivity |].
  intros H.
  apply (f_equal (λ c : gmap string attribute, c !! "bit_rate")) in H.
  vm_compute in H. discriminate H.
Qed.

(** A string for the integer [bit_rate] alone is stored without an
    exception: the load is no no-op. *)
Lemma load_type_mismatch_not_noop :
  load_settings (Json (PDict [("bit_rate", PStr "fast")]))
    (controller _initialize_variables)
  ≠ (controller _initialize_variables, None).
Proof.
  intros H. apply (f_equal fst) in H.
  apply (f_equal (λ c : gmap string attribute, c !! "bit_rate")) in H.
  vm_compute in H. discriminate H.
Qed.

(** A file whose bytes are no text raises to the caller as well. *)
Example load_undecodable_file :
  load_settings Undecodable (controller _initialize_variables) =
    (controller _initialize_variables, Some UnicodeDecodeError).
Proof. reflexivity. Qed.

(** A refused value does not undo the items before it. *)
Example load_keeps_earlier_items :
  get_int
    (load_settings
       (Json (PDict [("bit_rate", PInt 20); ("fullscreen", PNone);
                     ("max_fps", PInt 30)]))
       (controller _initialize_variables)).1 "bit_rate" = Some 20 ∧
  get_int
    (load_settings
       (Json (PDict [("bit_rate", PInt 20); ("fullscreen", PNone);
                     ("max_fps", PInt 30)]))
       (controller _initialize_variables)).1 "max_fps" = Some 60.
Proof. split; vm_compute; reflexivity. Qed.

(** A text that Tcl does not read as a boolean reaches the caller as
    [TclError], which [load_settings] does not handle. *)
Example load_raises_on_unreadable_boolean :
  (load_settings (Json (PDict [("fullscreen", PStr "maybe")]))
     (controller _initialize_variables)).2 = Some TclError.
Proof. vm_compute. reflexivity. Qed.

(** Keys that name no Tk variable are passed over. *)
Example load_ignores_unknown_keys :
  options_of
    (load_settings
       (Json (PDict [("window_size", PStr "800x600"); ("settings_file", PStr "x");
                     ("max_fps", PInt 30)]))
       (controller _initialize_variables)).1 =
  Some {| dark_mode := true;
          scrcpy_path := EmptyString;
          generated_command := "Please select the scrcpy executable...";
          bit_rate := 8;
          max_fps := 30;
          max_size := "1080";
          fullscreen := false;
          always_on_top := false;
          show_touches := false;
          turn_screen_off := false;
          stay_awake := false;
          audio_forward := true;
          record_screen := false;
          record_file_path := EmptyString;
          mirror_camera := false;
          camera_facing := "back";
          camera_size := "Default";
          camera_orientation := "Default";
          video_codec := "Default";
          audio_codec := "Default";
          video_buffer := 0;
          v4l2_sink_path := EmptyString;
          audio_bit_rate := "128" |}.
Proof. vm_compute. reflexivity. Qed.

(** C6: saving an option set and loading the file into a controller with
    the default values gives the controller of the saved option set, every
    variable reading as it did when saved; loading without a file leaves
    the defaults. *)
Theorem save_load_round_trip (self : options) (file : settings_file) :
  load_settings (save_settings None self file).1
    (controller _initialize_variables) = (controller self, None) ∧
  options_of
    (load_settings (save_settings None self file).1
       (controller _initialize_variables)).1 = Some self ∧
  load_settings Missing (controller _initialize_variables) =
    (controller _initialize_variables, None).
Proof.
  rewrite save_then_load_any. repeat split. apply options_of_controller.
Qed.

(** C10: the saved dictionary has an item for every Tk variable of the
    controller, the theme flag [dark_mode] and the preview text
    [generated_command] among them, and loading the file sets these two
    variables from it like the others. *)
Theorem save_writes_theme_and_preview (self other : options)
    (file : settings_file) :
  (save_settings None self file).1 = Json (PDict (settings_to_save self)) ∧
  (settings_to_save self).*1 =
    ["always_on_top"; "audio_bit_rate"; "audio_codec"; "audio_forward";
     "bit_rate"; "camera_facing"; "camera_orientation"; "camera_size";
     "dark_mode"; "fullscreen"; "generated_command"; "max_fps"; "max_size";
     "mirror_camera"; "record_file_path"; "record_screen"; "scrcpy_path";
     "show_touches"; "stay_awake"; "turn_screen_off"; "v4l2_sink_path";
     "video_buffer"; "video_codec"] ∧
  In ("dark_mode", PBool (dark_mode self)) (settings_to_save self) ∧
  In ("generated_command", PStr (generated_command self))
     (settings_to_save self) ∧
  get_bool (load_settings (save_settings None self file).1 (controller other)).1
    "dark_mode" = Some (dark_mode self) ∧
  get_str (load_settings (save_settings None self file).1 (controller other)).1
    "generated_command" = Some (generated_command self).
Proof.
  rewrite save_then_load_any. repeat split; cbn; tauto.
Qed.

(** * Further properties *)

(** ** The command builder, option by option *)

(** [only_in b]: the tokens of the class in the goal are those block [b]
    emits. *)
Ltac only_in b :=
  cbn [List.filter];
  match goal with
  | |- context [if ?p (quoted_path ?self) then _ else _] =>
      replace (p (quoted_path self)) with false by reflexivity
  end;
  rewrite filter_arguments;
  try (assert_fails (unify b source_block); quiet source_block);
  try (assert_fails (unify b window_block); quiet window_block);
  try (assert_fails (unify b audio_block); quiet audio_block);
  try (assert_fails (unify b record_block); quiet record_block);
  try (assert_fails (unify b advanced_block); quiet advanced_block);
  rewrite ?app_nil_r; cbn [app].

(** X1: each of the five window switches gives its bare flag exactly when
    it is on, in the order of the source, in either mode. *)
Theorem window_flags (self : options) (command : list string) :
  _build_scrcpy_command self = Some command →
  List.filter is_window_token command =
    ((if fullscreen self then ["--fullscreen"] else []) ++
     (if always_on_top self then ["--always-on-top"] else []) ++
     (if show_touches self then ["--show-touches"] else []) ++
     (if turn_screen_off self then ["--turn-screen-off"] else []) ++
     (if stay_awake self then ["--stay-awake"] else []))%list.
Proof.
  intros Hb. apply build_Some_inv in Hb as [_ ->].
  only_in window_block. by_cases_on_options.
Qed.

Example build_recording_scenario :
  _build_scrcpy_command recording_scenario =
    Some [Py.dquote +:+ "/opt/scrcpy/scrcpy" +:+ Py.dquote;
          "--video-bit-rate=16M"; "--max-fps=30";
          "--fullscreen"; "--stay-awake"; "--no-audio";
          "--record=" +:+ Py.dquote +:+ "/tmp/out.mp4" +:+ Py.dquote;
          "--video-codec=h265"; "--audio-codec=opus"; "--video-buffer=50";
          "--v4l2-sink=/dev/video2"].
Proof. reflexivity. Qed.

Lemma window_flags_witness :
  List.filter is_window_token
    [Py.dquote +:+ "/opt/scrcpy/scrcpy" +:+ Py.dquote;
     "--video-bit-rate=16M"; "--max-fps=30";
     "--fullscreen"; "--stay-awake"; "--no-audio";
     "--record=" +:+ Py.dquote +:+ "/tmp/out.mp4" +:+ Py.dquote;
     "--video-codec=h265"; "--audio-codec=opus"; "--video-buffer=50";
     "--v4l2-sink=/dev/video2"] = ["--fullscreen"; "--stay-awake"].
Proof. apply (window_flags recording_scenario). reflexivity. Defined.

(** X2: the recording token is emitted exactly when recording is on and the
    trimmed path is not empty; it holds the trimmed path between double
    quotes. *)
Theorem record_token (self : options) (command : list string) :
  _build_scrcpy_command self = Some command →
  (record_screen self = true → Py.strip (record_file_path self) ≠ EmptyString →
   List.filter is_record_token command =
     ["--record=" +:+ Py.dquote +:+ Py.strip (record_file_path self)
      +:+ Py.dquote]) ∧
  (record_screen self = false → List.filter is_record_token command = []) ∧
  (Py.strip (record_file_path self) = EmptyString →
   List.filter is_record_token command = []).
Proof.
  intros Hb. apply build_Some_inv in Hb as [_ ->].
  only_in record_block. unfold record_block. repeat split.
  - intros -> Hne. by destruct (Py.strip (record_file_path self)).
  - by intros ->.
  - intros ->. by rewrite andb_false_r.
Qed.

Lemma record_token_witness :
  List.filter is_record_token
    [Py.dquote +:+ "/opt/scrcpy/scrcpy" +:+ Py.dquote;
     "--video-bit-rate=16M"; "--max-fps=30";
     "--fullscreen"; "--stay-awake"; "--no-audio";
     "--record=" +:+ Py.dquote +:+ "/tmp/out.mp4" +:+ Py.dquote;
     "--video-codec=h265"; "--audio-codec=opus"; "--video-buffer=50";
     "--v4l2-sink=/dev/video2"] =
  ["--record=" +:+ Py.dquote +:+ "/tmp/out.mp4" +:+ Py.dquote].
Proof.
  apply (proj1 (record_token recording_scenario _ eq_refl)).
  - reflexivity.
  - discriminate.
Defined.

(** X3: each codec gives its token exactly when it is not [Default]. *)
Theorem codec_tokens (self : options) (command : list string) :
  _build_scrcpy_command self = Some command →
  List.filter is_video_codec_token command =
    (if decide (video_codec self = "Default") then []
     else ["--video-codec=" +:+ video_codec self]) ∧
  List.filter is_audio_codec_token command =
    (if decide (audio_codec self = "Default") then []
     else ["--audio-codec=" +:+ audio_codec self]).
Proof.
  intros Hb. apply build_Some_inv in Hb as [_ ->]. split.
  - only_in advanced_block. case_decide as Hc.
    + unfold advanced_block. rewrite (str_ne_false _ _ Hc). by_cases_on_options.
    + unfold advanced_block. rewrite (str_ne_true _ _ Hc). by_cases_on_options.
  - only_in advanced_block. case_decide as Hc.
    + unfold advanced_block. rewrite (str_ne_false _ _ Hc). by_cases_on_options.
    + unfold advanced_block. rewrite (str_ne_true _ _ Hc). by_cases_on_options.
Qed.

Lemma codec_tokens_witness :
  List.filter is_video_codec_token
    [Py.dquote +:+ "/opt/scrcpy/scrcpy" +:+ Py.dquote;
     "--video-bit-rate=16M"; "--max-fps=30";
     "--fullscreen"; "--stay-awake"; "--no-audio";
     "--record=" +:+ Py.dquote +:+ "/tmp/out.mp4" +:+ Py.dquote;
     "--video-codec=h265"; "--audio-codec=opus"; "--video-buffer=50";
     "--v4l2-sink=/dev/video2"] = ["--video-codec=h265"].
Proof. apply (proj1 (codec_tokens recording_scenario _ eq_refl)). Defined.

(** X4: the buffer token is emitted exactly when the buffer is positive;
    zero and negative values give none. *)
Theorem video_buffer_token (self : options) (command : list string) :
  _build_scrcpy_command self = Some command →
  (0 < video_buffer self →
   List.filter is_video_buffer_token command =
     ["--video-buffer=" +:+ Py.str_of_int (video_buffer self)]) ∧
  (video_buffer self ≤ 0 →
   List.filter is_video_buffer_token command = []).
Proof.
  intros Hb. apply build_Some_inv in Hb as [_ ->].
  only_in advanced_block. unfold advanced_block. split; intros Hv.
  - apply Z.ltb_lt in Hv. rewrite Hv. by_cases_on_options.
  - apply Z.ltb_ge in Hv. rewrite Hv. by_cases_on_options.
Qed.

Lemma video_buffer_token_witness :
  List.filter is_video_buffer_token
    [Py.dquote +:+ "/opt/scrcpy/scrcpy" +:+ Py.dquote;
     "--video-bit-rate=16M"; "--max-fps=30";
     "--fullscreen"; "--stay-awake"; "--no-audio";
     "--record=" +:+ Py.dquote +:+ "/tmp/out.mp4" +:+ Py.dquote;
     "--video-codec=h265"; "--audio-codec=opus"; "--video-buffer=50";
     "--v4l2-sink=/dev/video2"] = ["--video-buffer=50"].
Proof.
  apply (proj1 (video_buffer_token recording_scenario _ eq_refl)). reflexivity.
Defined.

(** X5: the V4L2 token is emitted exactly when the trimmed sink path is not
    empty, and holds the trimmed path. *)
Theorem v4l2_sink_token (self : options) (command : list string) :
  _build_scrcpy_command self = Some command →
  (Py.strip (v4l2_sink_path self) ≠ EmptyString →
   List.filter is_v4l2_sink_token command =
     ["--v4l2-sink=" +:+ Py.strip (v4l2_sink_path self)]) ∧
  (Py.strip (v4l2_sink_path self) = EmptyString →
   List.filter is_v4l2_sink_token command = []).
Proof.
  intros Hb. apply build_Some_inv in Hb as [_ ->].
  only_in advanced_block. unfold advanced_block. split.
  - intros Hne. destruct (Py.strip (v4l2_sink_path self)) eqn:Hs; [done |].
    cbn [Py.truthy]. by_cases_on_options.
  - intros ->. cbn [Py.truthy]. by_cases_on_options.
Qed.

Lemma v4l2_sink_token_witness :
  List.filter is_v4l2_sink_token
    [Py.dquote +:+ "/opt/scrcpy/scrcpy" +:+ Py.dquote;
     "--video-bit-rate=16M"; "--max-fps=30";
     "--fullscreen"; "--stay-awake"; "--no-audio";
     "--record=" +:+ Py.dquote +:+ "/tmp/out.mp4" +:+ Py.dquote;
     "--video-codec=h265"; "--audio-codec=opus"; "--video-buffer=50";
     "--v4l2-sink=/dev/video2"] = ["--v4l2-sink=/dev/video2"].
Proof.
  apply (proj1 (v4l2_sink_token recording_scenario _ eq_refl)). discriminate.
Defined.

(** X6: screen mirroring gives the bit-rate and frame-rate tokens once
    each, the size token unless the size is [Device Native], and no token
    of the camera. *)
Theorem screen_mode_tokens (self : options) (command : list string) :
  _build_scrcpy_command self = Some command →
  mirror_camera self = false →
  List.filter is_bit_rate_token command =
    ["--video-bit-rate=" +:+ Py.str_of_int (bit_rate self) +:+ "M"] ∧
  List.filter is_max_fps_token command =
    ["--max-fps=" +:+ Py.str_of_int (max_fps self)] ∧
  List.filter is_max_size_token command =
    (if decide (max_size self = "Device Native") then []
     else ["--max-size=" +:+ max_size self]) ∧
  List.filter is_camera_token command = [].
Proof.
  intros Hb Hscr. apply build_Some_inv in Hb as [_ ->]. repeat split.
  - only_in source_block. rewrite (source_screen _ Hscr). by_cases_on_options.
  - only_in source_block. rewrite (source_screen _ Hscr). by_cases_on_options.
  - only_in source_block. rewrite (source_screen _ Hscr). unfold screen_block.
    case_decide as Hs.
    + rewrite (str_ne_false _ _ Hs). by_cases_on_options.
    + rewrite (str_ne_true _ _ Hs). by_cases_on_options.
  - only_in source_block. rewrite (source_screen _ Hscr). by_cases_on_options.
Qed.

Lemma screen_mode_tokens_witness :
  List.filter is_max_size_token
    [Py.dquote +:+ "/opt/scrcpy/scrcpy" +:+ Py.dquote;
     "--video-bit-rate=16M"; "--max-fps=30";
     "--fullscreen"; "--stay-awake"; "--no-audio";
     "--record=" +:+ Py.dquote +:+ "/tmp/out.mp4" +:+ Py.dquote;
     "--video-codec=h265"; "--audio-codec=opus"; "--video-buffer=50";
     "--v4l2-sink=/dev/video2"] = [].
Proof.
  apply (screen_mode_tokens recording_scenario _ eq_refl). reflexivity.
Defined.

(** X7: camera mirroring gives the source token and the facing token once
    each, and no bit-rate, frame-rate or size token of the screen. *)
Theorem camera_mode_tokens (self : options) (command : list string) :
  _build_scrcpy_command self = Some command →
  mirror_camera self = true →
  List.filter is_camera_source_token command = ["--video-source=camera"] ∧
  List.filter is_camera_facing_token command =
    ["--camera-facing=" +:+ camera_facing self] ∧
  List.filter is_screen_token command = [].
Proof.
  intros Hb Hcam. apply build_Some_inv in Hb as [_ ->]. repeat split.
  - only_in source_block. rewrite (source_camera _ Hcam). by_cases_on_options.
  - only_in source_block. rewrite (source_camera _ Hcam). by_cases_on_options.
  - only_in source_block. rewrite (source_camera _ Hcam). by_cases_on_options.
Qed.

Lemma camera_mode_tokens_witness :
  List.filter is_camera_facing_token
    [Py.dquote +:+ "/usr/bin/scrcpy" +:+ Py.dquote;
     "--video-source=camera"; "--camera-facing=front";
     "--capture-orientation=1"] = ["--camera-facing=front"].
Proof.
  apply (camera_mode_tokens camera_scenario _ eq_refl). reflexivity.
Defined.

(** The builder does not read the preview text. *)
Lemma build_set_generated_command text self :
  _build_scrcpy_command (set_generated_command text self) =
  _build_scrcpy_command self.
Proof. reflexivity. Qed.

(** X8: the builder reads neither the theme nor the preview text, and the
    controls of the mode that is off do not change the command. *)
Theorem builder_ignores_inactive_controls (self : options) :
  (∀ text, _build_scrcpy_command (set_generated_command text self) =
           _build_scrcpy_command self) ∧
  (mirror_camera self = true →
   ∀ rate fps size,
     _build_scrcpy_command (set_screen_controls rate fps size self) =
     _build_scrcpy_command self) ∧
  (mirror_camera self = false →
   ∀ facing size orientation,
     _build_scrcpy_command (set_camera_controls facing size orientation self) =
     _build_scrcpy_command self).
Proof.
  repeat split.
  - intros Hcam rate fps size.
    unfold _build_scrcpy_command, body, source_block. cbn. by rewrite Hcam.
  - intros Hscr facing size orientation.
    unfold _build_scrcpy_command, body, source_block. cbn. by rewrite Hscr.
Qed.

Lemma builder_ignores_inactive_controls_witness :
  _build_scrcpy_command (set_screen_controls 50 120 "720" camera_scenario) =
  _build_scrcpy_command camera_scenario.
Proof.
  apply (proj1 (proj2 (builder_ignores_inactive_controls camera_scenario))).
  reflexivity.
Defined.

(** X9: a command has at least three tokens (the path and two of the
    mode) and at most sixteen. *)
Theorem command_length_bounds (self : options) (command : list string) :
  _build_scrcpy_command self = Some command →
  (3 ≤ length command ≤ 16)%nat.
Proof.
  intros Hb. apply build_Some_inv in Hb as [_ ->].
  unfold arguments. cbn [length]. rewrite !length_app.
  assert (2 ≤ length (source_block self []) ≤ 4)%nat
    by (unfold_blocks; repeat case_match; cbn; lia).
  assert (length (window_block self []) ≤ 5)%nat
    by (unfold_blocks; repeat case_match; cbn; lia).
  assert (length (audio_block self []) ≤ 1)%nat
    by (unfold_blocks; repeat case_match; cbn; lia).
  assert (length (record_block self []) ≤ 1)%nat
    by (unfold_blocks; repeat case_match; cbn; lia).
  assert (length (advanced_block self []) ≤ 4)%nat
    by (unfold_blocks; repeat case_match; cbn; lia).
  lia.
Qed.

Lemma command_length_bounds_witness :
  (3 ≤ length [Py.dquote +:+ "/usr/bin/scrcpy" +:+ Py.dquote;
               "--video-source=camera"; "--camera-facing=front";
               "--capture-orientation=1"] ≤ 16)%nat.
Proof. apply (command_length_bounds camera_scenario). reflexivity. Defined.

(** ** The command preview *)

Lemma preview_unfold self :
  _update_command_preview self =
    set_generated_command
      (if decide (scrcpy_path self = EmptyString) then placeholder
       else Py.join " " (quoted_path self :: arguments self)) self.
Proof.
  unfold _update_command_preview. rewrite build_unfold.
  by destruct (decide (scrcpy_path self = EmptyString)).
Qed.

(** X10: updating the preview writes [generated_command] and nothing else,
    the text it writes does not depend on the text that was there, and a
    second update changes nothing, so that the write trace, which runs the
    update again, leaves the result as it is. *)
Theorem preview_idempotent (self : options) :
  (∃ text, _update_command_preview self = set_generated_command text self) ∧
  (∀ stale, _update_command_preview (set_generated_command stale self) =
            _update_command_preview self) ∧
  _update_command_preview (_update_command_preview self) =
    _update_command_preview self ∧
  _update_command_preview_traced self = _update_command_preview self.
Proof.
  assert (Hstale : ∀ stale,
    _update_command_preview (set_generated_command stale self) =
    _update_command_preview self).
  { intros stale. unfold _update_command_preview.
    rewrite build_set_generated_command.
    by destruct (_build_scrcpy_command self) as [[| tok rest] |]. }
  split; [| split; [| split]].
  - rewrite preview_unfold. eauto.
  - exact Hstale.
  - rewrite (preview_unfold self) at 1. apply Hstale.
  - unfold _update_command_preview_traced.
    rewrite (preview_unfold self) at 1. apply Hstale.
Qed.

(** X11: the preview is the placeholder exactly when no executable is
    selected; otherwise it is the tokens joined with single spaces. *)
Theorem preview_placeholder_iff (self : options) :
  (generated_command (_update_command_preview self) = placeholder ↔
   scrcpy_path self = EmptyString) ∧
  (∀ command, _build_scrcpy_command self = Some command →
     generated_command (_update_command_preview self) = Py.join " " command).
Proof.
  rewrite preview_unfold, build_unfold. cbn [generated_command set_generated_command].
  case_decide as Hp; split.
  - done.
  - discriminate.
  - split; [intros H; exfalso | done].
    unfold quoted_path, placeholder in H.
    destruct (arguments self); cbn in H; discriminate H.
  - by intros command [= <-].
Qed.

Lemma preview_placeholder_iff_witness :
  generated_command (_update_command_preview screen_scenario) =
  Py.join " " [Py.dquote +:+ "/usr/bin/scrcpy" +:+ Py.dquote;
               "--video-bit-rate=8M"; "--max-fps=60"; "--max-size=1080"].
Proof.
  apply (proj2 (preview_placeholder_iff screen_scenario)). reflexivity.
Defined.

(** ** The launch action, case by case *)

(** X12: with an executable selected, the command line handed to [Popen],
    and printed after [Executing: ], is the text the preview shows. *)
Theorem launch_runs_the_preview
    (os_path_dirname : string → string) (spawn : string → string → option string)
    (self : options) :
  scrcpy_path self ≠ EmptyString →
  List.filter is_process_start (_launch_scrcpy os_path_dirname spawn self) =
    [Popen (generated_command (_update_command_preview self)) true
       (os_path_dirname (scrcpy_path self))] ∧
  In (Print ("Executing: " +:+ generated_command (_update_command_preview self)))
     (_launch_scrcpy os_path_dirname spawn self).
Proof.
  intros Hp. unfold _launch_scrcpy.
  rewrite preview_unfold, build_unfold, !decide_False by done.
  cbn [generated_command set_generated_command].
  destruct (spawn _ _); cbn; tauto.
Qed.

Lemma launch_runs_the_preview_witness :
  List.filter is_process_start
    (_launch_scrcpy posixpath.dirname (λ _ _, None) screen_scenario) =
    [Popen (generated_command (_update_command_preview screen_scenario)) true
       (posixpath.dirname "/usr/bin/scrcpy")] ∧
  In (Print ("Executing: "
             +:+ generated_command (_update_command_preview screen_scenario)))
     (_launch_scrcpy posixpath.dirname (λ _ _, None) screen_scenario).
Proof.
  apply (launch_runs_the_preview posixpath.dirname (λ _ _, None) screen_scenario).
  discriminate.
Defined.

(** X13: without an executable the launch only shows the error dialog: the
    button is not touched, nothing is started and no timer is set. *)
Theorem launch_without_executable
    (os_path_dirname : string → string) (spawn : string → string → option string)
    (self : options) :
  scrcpy_path self = EmptyString →
  _launch_scrcpy os_path_dirname spawn self =
    [ShowError "Error" "Scrcpy executable path is not set."].
Proof.
  intros Hp. unfold _launch_scrcpy. by rewrite build_unfold, decide_True.
Qed.

Lemma launch_without_executable_witness :
  _launch_scrcpy posixpath.dirname (λ _ _, None) _initialize_variables =
    [ShowError "Error" "Scrcpy executable path is not set."].
Proof.
  apply (launch_without_executable posixpath.dirname (λ _ _, None)
           _initialize_variables).
  reflexivity.
Defined.

(** X14: a launch with an executable first disables the button, and last
    of all sets the reset timer, once, whether [Popen] raised or not; the
    error dialog is shown exactly when it raised, with the text of the
    exception. *)
Theorem launch_always_sets_reset_timer
    (os_path_dirname : string → string) (spawn : string → string → option string)
    (self : options) (command : list string) :
  _build_scrcpy_command self = Some command →
  head (_launch_scrcpy os_path_dirname spawn self) =
    Some (ConfigButton "disabled" "Connecting...") ∧
  last (_launch_scrcpy os_path_dirname spawn self) =
    Some (After 3000 "_reset_connect_button") ∧
  List.filter is_timer (_launch_scrcpy os_path_dirname spawn self) =
    [After 3000 "_reset_connect_button"] ∧
  List.filter is_dialog (_launch_scrcpy os_path_dirname spawn self) =
    match spawn (Py.join " " command) (os_path_dirname (scrcpy_path self)) with
    | None => []
    | Some e =>
        [ShowError "Execution Error"
           ("Failed to launch scrcpy:" +:+ String (ascii_of_nat 10) e)]
    end.
Proof.
  intros Hb. unfold _launch_scrcpy. rewrite Hb.
  apply build_Some_inv in Hb as [_ ->].
  by destruct (spawn _ _).
Qed.

Lemma launch_always_sets_reset_timer_witness :
  last (_launch_scrcpy posixpath.dirname (λ _ _, Some "No such file")
          screen_scenario) =
    Some (After 3000 "_reset_connect_button") ∧
  List.filter is_dialog
    (_launch_scrcpy posixpath.dirname (λ _ _, Some "No such file")
       screen_scenario) =
    [ShowError "Execution Error"
       ("Failed to launch scrcpy:" +:+ String (ascii_of_nat 10) "No such file")].
Proof.
  destruct (launch_always_sets_reset_timer posixpath.dirname
              (λ _ _, Some "No such file") screen_scenario _ eq_refl)
    as (_ & Hlast & _ & Hdialog).
  split; [exact Hlast | exact Hdialog].
Defined.

(** ** The working directory of the launch *)

(** X15: with POSIX paths the process starts in the directory part of the
    executable path: the directory itself for [dir/name], the root for
    [/name], and the empty path for a bare name. *)
Theorem launch_working_directory
    (spawn : string → string → option string)
    (self : options) (command : list string) (dir name : string) :
  _build_scrcpy_command self = Some command →
  posixpath.has_sep name = false →
  (scrcpy_path self = dir +:+ "/" +:+ name → dir ≠ EmptyString →
   ends_with_sep dir = false →
   List.filter is_process_start (_launch_scrcpy posixpath.dirname spawn self) =
     [Popen (Py.join " " command) true dir]) ∧
  (scrcpy_path self = "/" +:+ name →
   List.filter is_process_start (_launch_scrcpy posixpath.dirname spawn self) =
     [Popen (Py.join " " command) true "/"]) ∧
  (scrcpy_path self = name →
   List.filter is_process_start (_launch_scrcpy posixpath.dirname spawn self) =
     [Popen (Py.join " " command) true EmptyString]).
Proof.
  intros Hb Hname.
  assert (Hstart :
    List.filter is_process_start (_launch_scrcpy posixpath.dirname spawn self) =
      [Popen (Py.join " " command) true (posixpath.dirname (scrcpy_path self))]).
  { unfold _launch_scrcpy. rewrite Hb.
    apply build_Some_inv in Hb as [_ ->]. by destruct (spawn _ _). }
  rewrite Hstart. repeat split.
  - intros -> Hdir Hend. by rewrite dirname_file_in_dir.
  - intros ->. by rewrite dirname_file_in_root.
  - intros ->. by rewrite dirname_bare_name.
Qed.

Lemma launch_working_directory_witness :
  List.filter is_process_start
    (_launch_scrcpy posixpath.dirname (λ _ _, None) recording_scenario) =
    [Popen (Py.join " "
              [Py.dquote +:+ "/opt/scrcpy/scrcpy" +:+ Py.dquote;
               "--video-bit-rate=16M"; "--max-fps=30";
               "--fullscreen"; "--stay-awake"; "--no-audio";
               "--record=" +:+ Py.dquote +:+ "/tmp/out.mp4" +:+ Py.dquote;
               "--video-codec=h265"; "--audio-codec=opus"; "--video-buffer=50";
               "--v4l2-sink=/dev/video2"])
       true "/opt/scrcpy"].
Proof.
  apply (proj1 (launch_working_directory (λ _ _, None) recording_scenario _
                  "/opt/scrcpy" "scrcpy" eq_refl eq_refl)).
  - reflexivity.
  - discriminate.
  - reflexivity.
Defined.

(** ** What a load changes and what it leaves *)

Lemma set_keeps_class var value var' :
  Tk.set var value = inr var' →
  class_of (TkVariable var') = class_of (TkVariable var).
Proof.
  destruct var as [b | old | old]; cbn [Tk.set].
  - destruct (Tk.getboolean value); [done |]. by intros [= <-].
  - by intros [= <-].
  - by intros [= <-].
Qed.

Lemma set_reads_class_only var1 var2 value :
  class_of (TkVariable var1) = class_of (TkVariable var2) →
  Tk.set var1 value = Tk.set var2 value.
Proof. by destruct var1, var2. Qed.

Lemma load_settings_state file (self : gmap string attribute) :
  (load_settings file self).1 = (try_load file self).1.
Proof.
  unfold load_settings. destruct (try_load file self) as [self' [e |]]; [| done].
  by destruct (handled e).
Qed.

(** The loop keeps the class of every attribute. *)
Lemma assign_items_class items (self : gmap string attribute) name :
  class_of <$> (assign_items items self).1 !! name = class_of <$> self !! name.
Proof.
  revert self. induction items as [| [key value] items IH]; intros self.
  - reflexivity.
  - cbn [assign_items].
    destruct (self !! key) as [[var |] |] eqn:Hkey; [| apply IH ..].
    destruct (Tk.set var value) as [e | var'] eqn:Hset; [done |].
    rewrite IH. destruct (decide (key = name)) as [-> | Hne].
    + rewrite lookup_insert_eq, Hkey. cbn. f_equal.
      by apply set_keeps_class with value.
    + by rewrite lookup_insert_ne.
Qed.

(** The loop writes only at the keys of the dictionary. *)
Lemma assign_items_other_names items (self : gmap string attribute) name :
  ¬ In name items.*1 →
  (assign_items items self).1 !! name = self !! name.
Proof.
  revert self. induction items as [| [key value] items IH]; intros self Hnot.
  - reflexivity.
  - cbn in Hnot. cbn [assign_items].
    assert (Hrest : ¬ In name items.*1) by tauto.
    assert (Hne : key ≠ name) by tauto.
    destruct (self !! key) as [[var |] |]; [| by apply IH ..].
    destruct (Tk.set var value) as [e | var']; [done |].
    rewrite IH by done. by rewrite lookup_insert_ne.
Qed.

Lemma names_variable_insert (self : gmap string attribute) key var var' name :
  self !! key = Some (TkVariable var) →
  names_variable (<[key := TkVariable var']> self) name =
  names_variable self name.
Proof.
  intros Hkey. unfold names_variable.
  destruct (decide (key = name)) as [-> | Hne].
  - by rewrite lookup_insert_eq, Hkey.
  - by rewrite lookup_insert_ne.
Qed.

(** X16: a load adds no attribute and removes none, keeps every Tk
    variable in its class, and leaves alone what is not a Tk variable. *)
Theorem load_keeps_attributes (file : settings_file)
    (self : gmap string attribute) (name : string) :
  class_of <$> (load_settings file self).1 !! name = class_of <$> self !! name ∧
  ((load_settings file self).1 !! name = None ↔ self !! name = None) ∧
  ((load_settings file self).1 !! name = Some OtherAttribute ↔
   self !! name = Some OtherAttribute).
Proof.
  assert (Hclass :
    class_of <$> (load_settings file self).1 !! name = class_of <$> self !! name).
  { rewrite load_settings_state.
    destruct file as [| | | | text | text | text | [| b | n | s | l | items]];
      try reflexivity.
    apply assign_items_class. }
  split; [exact Hclass |].
  destruct ((load_settings file self).1 !! name) as [[[b | v | v] |] |];
    destruct (self !! name) as [[[b' | v' | v'] |] |];
    cbn in Hclass; try discriminate Hclass; split; split; congruence.
Qed.

(** X17: a variable that the dictionary does not name keeps its value. *)
Theorem load_leaves_unnamed_variables (items : list (string * pyval))
    (self : gmap string attribute) (name : string) :
  ¬ In name items.*1 →
  (load_settings (Json (PDict items)) self).1 !! name = self !! name.
Proof.
  intros Hnot. rewrite load_settings_state. by apply assign_items_other_names.
Qed.

Lemma load_leaves_unnamed_variables_witness :
  (load_settings (Json (PDict [("max_fps", PInt 30)]))
     (controller _initialize_variables)).1 !! "bit_rate" =
  controller _initialize_variables !! "bit_rate".
Proof.
  apply (load_leaves_unnamed_variables [("max_fps", PInt 30)]).
  cbn. intros [H | []]. discriminate H.
Defined.

Lemma assign_items_filter items (self : gmap string attribute) :
  assign_items items self =
  assign_items (List.filter (λ item, names_variable self item.1) items) self.
Proof.
  revert self. induction items as [| [key value] items IH]; intros self.
  - reflexivity.
  - cbn [List.filter fst]. unfold names_variable at 1. cbn [assign_items].
    destruct (self !! key) as [[var |] |] eqn:Hkey; [| apply IH ..].
    cbn [assign_items]. rewrite Hkey.
    destruct (Tk.set var value) as [e | var'] eqn:Hset; [done |].
    rewrite IH. f_equal. apply List.filter_ext.
    intros [k v]. cbn [fst]. by apply names_variable_insert with var.
Qed.

(** X18: items whose key names no Tk variable of the controller are
    passed over: the load of a dictionary is the load of its items that
    name one. *)
Theorem load_passes_over_other_keys (items : list (string * pyval))
    (self : gmap string attribute) :
  load_settings (Json (PDict items)) self =
  load_settings
    (Json (PDict (List.filter (λ item, names_variable self item.1) items)))
    self.
Proof.
  unfold load_settings, try_load. by rewrite <- assign_items_filter.
Qed.


Lemma names_boolean_insert (self : gmap string attribute) key var var' name :
  self !! key = Some (TkVariable var) →
  class_of (TkVariable var') = class_of (TkVariable var) →
  names_boolean (<[key := TkVariable var']> self) name =
  names_boolean self name.
Proof.
  intros Hkey Hclass. unfold names_boolean.
  destruct (decide (key = name)) as [-> | Hne].
  - rewrite lookup_insert_eq, Hkey. by destruct var, var'.
  - by rewrite lookup_insert_ne.
Qed.

Lemma forallb_pointwise {A} (f g : A → bool) (l : list A) :
  (∀ x, f x = g x) → forallb f l = forallb g l.
Proof. intros Hfg. induction l as [| x l IH]; cbn; [done |]. by rewrite Hfg, IH. Qed.

Lemma assign_items_readable items (self : gmap string attribute) :
  booleans_readable self items = true → (assign_items items self).2 = None.
Proof.
  revert self. induction items as [| [key value] items IH]; intros self.
  - reflexivity.
  - unfold booleans_readable. cbn [forallb fst snd].
    intros [Hhead Hrest]%andb_true_iff. cbn [assign_items].
    destruct (self !! key) as [[var |] |] eqn:Hkey; [| by apply IH ..].
    destruct (Tk.set var value) as [e | var'] eqn:Hset.
    + exfalso. unfold names_boolean, reads_as_boolean in Hhead.
      rewrite Hkey in Hhead.
      destruct var as [b | old | old]; cbn [Tk.set] in Hset; [| done ..].
      by destruct (Tk.getboolean value).
    + apply IH. unfold booleans_readable in Hrest |- *.
      rewrite <- Hrest. apply forallb_pointwise. intros [k v]. cbn [fst snd].
      rewrite (names_boolean_insert _ _ var); [done | done |].
      by apply set_keeps_class with value.
Qed.

Lemma last_value_None items name :
  last_value items name = None → ¬ In name items.*1.
Proof.
  induction items as [| [key value] items IH]; [by intros _ [] |].
  cbn [last_value]. destruct (last_value items name); [done |].
  destruct (String.eqb key name) eqn:Heq; [done |].
  intros _ [Hk | Hin]; [| by apply IH].
  cbn in Hk. subst key. by rewrite String.eqb_refl in Heq.
Qed.

Lemma assign_items_last items (self : gmap string attribute) name var value :
  (assign_items items self).2 = None →
  self !! name = Some (TkVariable var) →
  last_value items name = Some value →
  ∃ var', Tk.set var value = inr var' ∧
          (assign_items items self).1 !! name = Some (TkVariable var').
Proof.
  revert self var. induction items as [| [key v0] items IH]; intros self var.
  - discriminate 3.
  - cbn [assign_items last_value].
    destruct (self !! key) as [[vark |] |] eqn:Hkey.
    + destruct (Tk.set vark v0) as [e | vark'] eqn:Hset; [discriminate 1 |].
      intros Hnone Hname Hlast.
      destruct (last_value items name) as [later |] eqn:Hlater.
      * injection Hlast as ->.
        destruct (decide (key = name)) as [-> | Hne].
        -- destruct (IH (<[name := TkVariable vark']> self) vark' Hnone)
             as (var' & Hset' & Hres); [by rewrite lookup_insert_eq | done |].
           exists var'. split; [| done].
           rewrite <- Hset'. apply set_reads_class_only.
           assert (var = vark) as -> by congruence.
           symmetry. by apply set_keeps_class with v0.
        -- apply IH; [done | by rewrite lookup_insert_ne | done].
      * destruct (String.eqb key name) eqn:Heq; [| done].
        apply String.eqb_eq in Heq as ->. injection Hlast as ->.
        assert (var = vark) as -> by congruence.
        exists vark'. split; [done |].
        rewrite assign_items_other_names by (by apply last_value_None).
        by rewrite lookup_insert_eq.
    + intros Hnone Hname Hlast.
      destruct (last_value items name) as [later |] eqn:Hlater.
      * injection Hlast as ->. by apply IH.
      * destruct (String.eqb key name) eqn:Heq; [| done].
        apply String.eqb_eq in Heq as ->. congruence.
    + intros Hnone Hname Hlast.
      destruct (last_value items name) as [later |] eqn:Hlater.
      * injection Hlast as ->. by apply IH.
      * destruct (String.eqb key name) eqn:Heq; [| done].
        apply String.eqb_eq in Heq as ->. congruence.
Qed.

(** X20: when every value given to a boolean variable is one that
    [getboolean] accepts, the load raises nothing, and every variable the
    dictionary names ends up set to the value of its last item. *)
Theorem load_sets_named_variables (items : list (string * pyval))
    (self : gmap string attribute) :
  booleans_readable self items = true →
  (load_settings (Json (PDict items)) self).2 = None ∧
  ∀ name var value,
    self !! name = Some (TkVariable var) →
    last_value items name = Some value →
    ∃ var', Tk.set var value = inr var' ∧
            (load_settings (Json (PDict items)) self).1 !! name =
              Some (TkVariable var').
Proof.
  intros Hread. pose proof (assign_items_readable _ _ Hread) as Hnone.
  split.
  - unfold load_settings, try_load.
    destruct (assign_items items self) as [self' raised].
    cbn in Hnone. by subst raised.
  - intros name var value Hname Hlast. rewrite load_settings_state.
    by apply assign_items_last.
Qed.

Lemma load_sets_named_variables_witness :
  (load_settings
     (Json (PDict [("fullscreen", PInt 1); ("max_fps", PStr "fast");
                   ("theme", PStr "blue"); ("fullscreen", PStr "no")]))
     (controller _initialize_variables)).2 = None ∧
  ∀ name var value,
    controller _initialize_variables !! name = Some (TkVariable var) →
    last_value [("fullscreen", PInt 1); ("max_fps", PStr "fast");
                ("theme", PStr "blue"); ("fullscreen", PStr "no")] name =
      Some value →
    ∃ var', Tk.set var value = inr var' ∧
            (load_settings
               (Json (PDict [("fullscreen", PInt 1); ("max_fps", PStr "fast");
                             ("theme", PStr "blue"); ("fullscreen", PStr "no")]))
               (controller _initialize_variables)).1 !! name =
              Some (TkVariable var').
Proof.
  apply (load_sets_named_variables
           [("fullscreen", PInt 1); ("max_fps", PStr "fast");
            ("theme", PStr "blue"); ("fullscreen", PStr "no")]
           (controller _initialize_variables)).
  vm_compute. reflexivity.
Defined.

(** The loop run from a state that has the same classes, and that holds
    at each name either the same value or already the final one, ends in
    the same state with the same exception. *)
Lemma assign_items_absorbs items (s t : gmap string attribute) :
  (∀ name, class_of <$> t !! name = class_of <$> s !! name) →
  (∀ name, t !! name = s !! name ∨
           t !! name = (assign_items items s).1 !! name) →
  assign_items items t = assign_items items s.
Proof.
  revert s t. induction items as [| [key value] items IH]; intros s t Hclass Hval.
  - cbn [assign_items] in *. f_equal. apply map_eq. intros name.
    by destruct (Hval name).
  - cbn [assign_items] in *. pose proof (Hclass key) as Hk.
    destruct (s !! key) as [[vs |] |] eqn:Hs;
      destruct (t !! key) as [[vt |] |] eqn:Ht;
      cbn [fmap option_fmap option_map] in Hk;
      try discriminate Hk; try (by apply IH);
      try (by destruct vs); try (by destruct vt).
    assert (Hcl : class_of (TkVariable vt) = class_of (TkVariable vs))
      by congruence.
    rewrite (set_reads_class_only vt vs value Hcl).
    destruct (Tk.set vs value) as [e | var'] eqn:Hset.
    + f_equal. apply map_eq. intros name. by destruct (Hval name).
    + apply IH.
      * intros name. destruct (decide (key = name)) as [-> | Hne].
        -- by rewrite !lookup_insert_eq.
        -- rewrite !lookup_insert_ne by done. apply Hclass.
      * intros name. destruct (decide (key = name)) as [-> | Hne].
        -- left. by rewrite !lookup_insert_eq.
        -- rewrite !lookup_insert_ne by done. apply Hval.
Qed.

(** X21: loading the same file a second time changes nothing more and
    ends the same way. *)
Theorem load_twice (file : settings_file) (self : gmap string attribute) :
  load_settings file (load_settings file self).1 = load_settings file self.
Proof.
  destruct file as [| | | | text | text | text | [| b | n | s | l | items]];
    try reflexivity.
  rewrite load_settings_state. unfold load_settings, try_load.
  rewrite (assign_items_absorbs items self (assign_items items self).1);
    [done | |].
  - intros name. apply assign_items_class.
  - intros name. by right.
Qed.

(** ** What is saved *)

(** X22: the saved dictionary has a key exactly for the attributes that
    are Tk variables ([settings_file] and [CONSTANTS] are not written),
    each once, in increasing order of the names. *)
Theorem save_writes_exactly_the_variables (self : options) (name : string) :
  (In name (settings_to_save self).*1 ↔
   names_variable (controller self) name = true) ∧
  NoDup (settings_to_save self).*1 ∧
  increasing (settings_to_save self).*1 = true.
Proof.
  split; [| split].
  - rewrite settings_to_save_keys. unfold names_variable.
    destruct (controller self !! name) as [[var |] |].
    + split; eauto.
    + split; [intros [var [=]] | done].
    + split; [intros [var [=]] | done].
  - apply (bool_decide_unpack _). by vm_compute.
  - apply settings_to_save_sorted.
Qed.

(** X26: a save that fails on [open] raises nothing, prints one line and
    leaves the file of the last successful save, which the next load still
    restores. *)
Theorem failed_save_keeps_last_file (e : string) (saved later : options)
    (file : settings_file) :
  (save_settings (Some e) later (save_settings None saved file).1).2 =
    [Print ("Error saving settings: " +:+ e)] ∧
  load_settings
    (save_settings (Some e) later (save_settings None saved file).1).1
    (controller _initialize_variables) = (controller saved, None).
Proof. split; [reflexivity |]. apply save_then_load_any. Qed.

(** ** The handlers that refresh the window *)

Lemma preview_twice self :
  _update_command_preview (_update_command_preview self) =
  _update_command_preview self.
Proof.
  rewrite (preview_unfold self) at 1. unfold _update_command_preview.
  rewrite build_set_generated_command.
  by destruct (_build_scrcpy_command self) as [[| tok rest] |].
Qed.

Lemma preview_traced self :
  _update_command_preview_traced self = _update_command_preview self.
Proof. apply preview_twice. Qed.

(** X23: [_update_ui_from_loaded_settings] on an option set whose
    variables hold values of their types, which is what the load of a file
    saved by the application gives. The preview is the one of the options,
    whatever preview text the file held. One theme is set, dark or light
    as [dark_mode] says. The widgets enabled are, in this order: the three
    screen controls when the camera is off and the six camera controls
    when it is on, the two widgets of the recording path when recording is
    on, and the connect button when an executable is set. The widgets
    disabled are the controls of the other mode, and the two widgets of
    the recording path when recording is off. Nothing else is asked of a
    widget. *)
Theorem window_follows_loaded_settings (self : options) :
  (∀ file,
     load_settings (save_settings None self file).1
       (controller _initialize_variables) = (controller self, None)) ∧
  (_update_ui_from_loaded_settings self).1 = _update_command_preview self ∧
  (∀ stale,
     (_update_ui_from_loaded_settings (set_generated_command stale self)).1 =
     (_update_ui_from_loaded_settings self).1) ∧
  themes_set (_update_ui_from_loaded_settings self).2 =
    [if dark_mode self then "dark" else "light"] ∧
  widgets_set_to "normal" (_update_ui_from_loaded_settings self).2 =
    ((if mirror_camera self then camera_widgets else screen_widgets)
     ++ (if record_screen self then record_widgets else [])
     ++ (if String.eqb (scrcpy_path self) EmptyString
         then [] else ["connect_button"]))%list ∧
  widgets_set_to "disabled" (_update_ui_from_loaded_settings self).2 =
    ((if mirror_camera self then screen_widgets else camera_widgets)
     ++ (if record_screen self then [] else record_widgets))%list ∧
  forallb is_widget_state (_update_ui_from_loaded_settings self).2 = true ∧
  length (_update_ui_from_loaded_settings self).2 =
    (12 + if String.eqb (scrcpy_path self) EmptyString then 0 else 1)%nat ∧
  (In (WidgetState "connect_button" "normal")
      (_update_ui_from_loaded_settings self).2 ↔
   scrcpy_path self ≠ EmptyString) ∧
  (In (WidgetState "bit_rate_scale" "normal")
      (_update_ui_from_loaded_settings self).2 ↔
   mirror_camera self = false) ∧
  (In (WidgetState "camera_facing_combo" "normal")
      (_update_ui_from_loaded_settings self).2 ↔
   mirror_camera self = true) ∧
  (In (WidgetState "record_file_entry" "normal")
      (_update_ui_from_loaded_settings self).2 ↔
   record_screen self = true).
Proof.
  split; [intros file; apply save_then_load_any |].
  assert (Hstate :
    (_update_ui_from_loaded_settings self).1 = _update_command_preview self).
  { unfold _update_ui_from_loaded_settings, _toggle_camera_options,
      _toggle_record_file_entry. cbn [fst].
    by rewrite !preview_traced, !preview_twice. }
  assert (Hpath : ∀ o, scrcpy_path (_update_command_preview o) = scrcpy_path o).
  { intros o. by rewrite preview_unfold. }
  split; [exact Hstate |]. split.
  { intros stale. rewrite Hstate.
    unfold _update_ui_from_loaded_settings, _toggle_camera_options,
      _toggle_record_file_entry. cbn [fst].
    rewrite !preview_traced, !preview_twice.
    unfold _update_command_preview. rewrite build_set_generated_command.
    by destruct (_build_scrcpy_command self) as [[| tok rest] |]. }
  assert (Hrec : ∀ o, record_screen (_update_command_preview o) = record_screen o).
  { intros o. by rewrite preview_unfold. }
  unfold _update_ui_from_loaded_settings, _toggle_camera_options,
    _toggle_record_file_entry, _toggle_theme. cbn [snd].
  rewrite !preview_traced, !Hpath, !Hrec.
  destruct (scrcpy_path self) as [| c path], (mirror_camera self),
    (record_screen self), (dark_mode self); cbn [Py.truthy app In];
    (split; [reflexivity |]); (split; [reflexivity |]);
    (split; [reflexivity |]); (split; [reflexivity |]);
    (split; [reflexivity |]);
    repeat split; intros; try done;
    repeat match goal with H : _ ∨ _ |- _ => destruct H end;
    try done; repeat first [by left | right].
Qed.

(** X24: cancelling the file dialog changes nothing and asks nothing of
    the window; choosing a path sets it, enables the connect button and
    leaves a preview that is the command of the new options, which a
    launch then starts. *)
Theorem browse_selects_executable
    (os_path_dirname : string → string) (spawn : string → string → option string)
    (path : string) (self : options) :
  _browse_for_scrcpy EmptyString self = (self, []) ∧
  (path ≠ EmptyString →
   (_browse_for_scrcpy path self).2 = [WidgetState "connect_button" "normal"] ∧
   scrcpy_path (_browse_for_scrcpy path self).1 = path ∧
   ∃ command,
     _build_scrcpy_command (_browse_for_scrcpy path self).1 = Some command ∧
     generated_command (_browse_for_scrcpy path self).1 = Py.join " " command ∧
     List.filter is_process_start
       (_launch_scrcpy os_path_dirname spawn (_browse_for_scrcpy path self).1) =
       [Popen (Py.join " " command) true (os_path_dirname path)]).
Proof.
  split; [reflexivity |]. intros Hp.
  unfold _browse_for_scrcpy. destruct path as [| c path]; [done |].
  cbn [Py.truthy fst snd]. rewrite !preview_traced, preview_twice.
  set (chosen := set_scrcpy_path (String c path) self).
  assert (Hb : _build_scrcpy_command (_update_command_preview chosen) =
               Some (quoted_path chosen :: arguments chosen)).
  { rewrite preview_unfold, build_set_generated_command, build_unfold.
    by rewrite decide_False. }
  split; [done |]. split; [by rewrite preview_unfold |].
  exists (quoted_path chosen :: arguments chosen). split; [exact Hb |]. split.
  - rewrite preview_unfold. cbn [generated_command set_generated_command].
    by rewrite decide_False.
  - unfold _launch_scrcpy. rewrite Hb.
    replace (scrcpy_path (_update_command_preview chosen)) with (String c path)
      by (by rewrite preview_unfold).
    by destruct (spawn _ _).
Qed.

Lemma browse_selects_executable_witness :
  (_browse_for_scrcpy "/usr/bin/scrcpy" _initialize_variables).2 =
    [WidgetState "connect_button" "normal"] ∧
  scrcpy_path (_browse_for_scrcpy "/usr/bin/scrcpy" _initialize_variables).1 =
    "/usr/bin/scrcpy" ∧
  ∃ command,
    _build_scrcpy_command
      (_browse_for_scrcpy "/usr/bin/scrcpy" _initialize_variables).1 =
      Some command ∧
    generated_command
      (_browse_for_scrcpy "/usr/bin/scrcpy" _initialize_variables).1 =
      Py.join " " command ∧
    List.filter is_process_start
      (_launch_scrcpy posixpath.dirname (λ _ _, None)
         (_browse_for_scrcpy "/usr/bin/scrcpy" _initialize_variables).1) =
      [Popen (Py.join " " command) true (posixpath.dirname "/usr/bin/scrcpy")].
Proof.
  apply (proj2 (browse_selects_executable posixpath.dirname (λ _ _, None)
                  "/usr/bin/scrcpy" _initialize_variables)).
  discriminate.
Defined.

(** ** The order of the tokens *)

Lemma ascending_mono lo lo' l :
  (lo ≤ lo')%nat → ascending lo' l = true → ascending lo l = true.
Proof.
  destruct l as [| x l]; [done |]. cbn [ascending].
  intros Hle [Hx Hrest]%andb_true_iff. apply andb_true_iff. split; [| done].
  apply Nat.leb_le. apply Nat.leb_le in Hx. lia.
Qed.

Lemma ascending_app lo mid l1 l2 :
  (lo ≤ mid)%nat →
  ascending lo l1 = true → below mid l1 = true → ascending mid l2 = true →
  ascending lo (l1 ++ l2) = true.
Proof.
  revert lo. induction l1 as [| x l1 IH]; intros lo Hle H1 Hb H2.
  - by apply ascending_mono with mid.
  - cbn [ascending app] in *. unfold below in Hb. cbn [forallb] in Hb.
    apply andb_true_iff in H1 as [Hx H1]. apply andb_true_iff in Hb as [Hxm Hb].
    apply andb_true_iff. split; [done |].
    apply IH; [| done | done | done]. apply Nat.ltb_lt in Hxm. lia.
Qed.

Ltac ranks_by_cases :=
  unfold_blocks; repeat case_match; cbn [map app]; reflexivity.

Lemma source_ranks self :
  ascending 1 (map token_rank (source_block self [])) = true ∧
  below 5 (map token_rank (source_block self [])) = true.
Proof. split; ranks_by_cases. Qed.

Lemma window_ranks self :
  ascending 5 (map token_rank (window_block self [])) = true ∧
  below 10 (map token_rank (window_block self [])) = true.
Proof. split; ranks_by_cases. Qed.

Lemma audio_ranks self :
  ascending 10 (map token_rank (audio_block self [])) = true ∧
  below 11 (map token_rank (audio_block self [])) = true.
Proof. split; ranks_by_cases. Qed.

Lemma record_ranks self :
  ascending 11 (map token_rank (record_block self [])) = true ∧
  below 12 (map token_rank (record_block self [])) = true.
Proof. split; ranks_by_cases. Qed.

Lemma advanced_ranks self :
  ascending 12 (map token_rank (advanced_block self [])) = true.
Proof. ranks_by_cases. Qed.

(** X25: the tokens of a command come in the order of the statements of
    the source (path, mode, window switches, audio, recording, codecs,
    buffer, sink), and no statement's token comes twice. *)
Theorem tokens_in_source_order (self : options) (command : list string) :
  _build_scrcpy_command self = Some command →
  ascending 0 (map token_rank command) = true.
Proof.
  intros Hb. apply build_Some_inv in Hb as [_ ->].
  cbn [map ascending]. replace (token_rank (quoted_path self)) with 0%nat
    by reflexivity.
  cbn [Nat.leb andb]. unfold arguments. rewrite !map_app.
  destruct (source_ranks self) as [Hs1 Hs2].
  destruct (window_ranks self) as [Hw1 Hw2].
  destruct (audio_ranks self) as [Ha1 Ha2].
  destruct (record_ranks self) as [Hr1 Hr2].
  pose proof (advanced_ranks self) as Hv.
  apply ascending_app with 5%nat; [lia | done | done |].
  apply ascending_app with 10%nat; [lia | done | done |].
  apply ascending_app with 11%nat; [lia | done | done |].
  apply ascending_app with 12%nat; [lia | done | done | done].
Qed.

Lemma tokens_in_source_order_witness :
  ascending 0
    (map token_rank
       [Py.dquote +:+ "/opt/scrcpy/scrcpy" +:+ Py.dquote;
        "--video-bit-rate=16M"; "--max-fps=30";
        "--fullscreen"; "--stay-awake"; "--no-audio";
        "--record=" +:+ Py.dquote +:+ "/tmp/out.mp4" +:+ Py.dquote;
        "--video-codec=h265"; "--audio-codec=opus"; "--video-buffer=50";
        "--v4l2-sink=/dev/video2"]) = true.
Proof. apply (tokens_in_source_order recording_scenario). reflexivity. Defined.
